(** * The GRUB [search] command (commands/search.c)

    A shallow embedding of [search_fs], [search_file] and [grub_cmd_search]
    together with the properties of the matching-and-aggregation algorithm:
    mode dispatch, the per-device tests, first-match short-circuit against
    exhaustive collection, floppy exclusion and the final error decision.

    The C code talks to the rest of GRUB through [grub_errno], the
    environment and a handful of library calls.  Here the global state is a
    record, every library call is logged as an [event], and the answers of
    the platform (which devices exist, which open, what they contain) come
    from a [platform] record of oracles. *)

From Stdlib Require Import ZArith Ascii String Lia.
From stdpp Require Import base gmap strings list.

(** ** Error codes

    [grub_err_t] is declared in grub/err.h.  Only [GRUB_ERR_NONE],
    [GRUB_ERR_FILE_NOT_FOUND] and [GRUB_ERR_INVALID_COMMAND] occur in
    search.c; the other constructors are codes the library calls may leave
    in [grub_errno]. *)
Inductive grub_err_t :=
| GRUB_ERR_NONE
| GRUB_ERR_OUT_OF_MEMORY
| GRUB_ERR_BAD_FILE_TYPE
| GRUB_ERR_FILE_NOT_FOUND
| GRUB_ERR_FILE_READ_ERROR
| GRUB_ERR_BAD_FILENAME
| GRUB_ERR_UNKNOWN_FS
| GRUB_ERR_BAD_FS
| GRUB_ERR_UNKNOWN_DEVICE
| GRUB_ERR_BAD_DEVICE
| GRUB_ERR_READ_ERROR
| GRUB_ERR_INVALID_COMMAND
| GRUB_ERR_BAD_ARGUMENT.

#[global] Instance grub_err_eq_dec : EqDecision grub_err_t.
Proof. solve_decision. Defined.

(** ** Handles and filesystem descriptors *)

(** [grub_device_t]: an open device, identified by the name it was opened
    from. *)
Record grub_device := { dev_name : string }.

(** [grub_file_t]: an open file, identified by its path. *)
Record grub_file := { file_name : string }.

(** [struct grub_fs], restricted to the two accessors search.c uses.  A null
    function pointer is [None].  An accessor returns its [grub_err_t] and
    the string it stored through its second argument ([None] for a null
    pointer). *)
Record grub_fs := {
  fs_name : string;
  label : option (grub_device -> grub_err_t * option string);
  uuid : option (grub_device -> grub_err_t * option string)
}.

(** Outcome of a library call that either yields a value or fails leaving a
    code in [grub_errno]. *)
Inductive result (A : Type) :=
| Ok (a : A)
| Err (e : grub_err_t).
Arguments Ok {A} a.
Arguments Err {A} e.

(** ** The platform

    What lies outside search.c: the devices the enumerator yields, in its
    order, and the outcome of opening a device, probing it, growing the path
    buffer to a given size and opening a file. *)
Record platform := {
  pf_devices : list string;
  pf_device_open : string -> result unit;
  pf_fs_probe : string -> result grub_fs;
  pf_realloc : N -> result unit;
  pf_file_open : string -> result unit
}.

(** ** Global state, events and the command monad *)

(** The two pieces of global state the command reads or writes: the pending
    error code and the variable store. *)
Record globals := {
  grub_errno : grub_err_t;
  env : gmap string string
}.

(** One entry per call that leaves search.c. *)
Inductive event :=
| EvDeviceOpen (name : string)
| EvFsProbe (name : string)
| EvFsQuid (name : string)
| EvDeviceClose (name : string)
| EvRealloc (len : N)
| EvFree
| EvFileOpen (path : string)
| EvFileClose (path : string)
| EvEnvSet (var val : string)
| EvPrintf (text : string)
| EvError (n : grub_err_t) (msg : string).

(** What running a piece of the command produces: a value, the new global
    state and the calls it made, oldest first. *)
Record res (A : Type) := Res {
  val : A;
  st : globals;
  evs : list event
}.
Arguments Res {A} val st evs.
Arguments val {A} r.
Arguments st {A} r.
Arguments evs {A} r.

Definition M (A : Type) : Type := globals -> res A.

#[global] Instance M_ret : MRet M := fun A a s => Res a s [].

#[global] Instance M_bind : MBind M := fun A B k m s =>
  match m s with
  | Res a s1 t1 =>
      match k a s1 with
      | Res b s2 t2 => Res b s2 (t1 ++ t2)
      end
  end.

Definition emit (e : event) : M unit := fun s => Res tt s [e].

Definition get_errno : M grub_err_t := fun s => Res (grub_errno s) s [].

(** The assignment [grub_errno = n]. *)
Definition set_errno (n : grub_err_t) : M unit :=
  fun s => Res tt {| grub_errno := n; env := env s |} [].

(** The variable store after [var] has been given the value [val]. *)
Definition env_insert (var val : string) : M unit :=
  fun s => Res tt {| grub_errno := grub_errno s; env := <[var := val]> (env s) |} [].

(** A library call failed with code [e]: it leaves [e] pending.  A call that
    failed without recording an error ([GRUB_ERR_NONE]) leaves [grub_errno]
    as it was. *)
Definition fail_with (e : grub_err_t) : M unit :=
  if bool_decide (e = GRUB_ERR_NONE) then mret tt else set_errno e.

(** ** C conventions *)

(** An [int] used as a condition. *)
Definition truthy (z : Z) : bool := negb (z =? 0)%Z.

(** [s[i]] for a NUL-terminated string whose contents are [s]: reading the
    position just past the contents yields the terminator. *)
Definition char_at (s : string) (i : nat) : ascii :=
  default "000"%char (String.get i s).

(** Modelled from the spec: [grub_strcmp] of grub/misc.h, which search.c
    only compares to zero; "exact equality (byte-for-byte)". *)
Definition grub_strcmp (s1 s2 : string) : Z :=
  match String.compare s1 s2 with
  | Eq => 0
  | Lt => -1
  | Gt => 1
  end%Z.

(** Modelled from the spec: [grub_strlen] of grub/misc.h, as a
    [grub_size_t] without an upper bound: two strings that fit in memory
    cannot overflow the sum computed from them. *)
Definition grub_strlen (s : string) : N := N.of_nat (String.length s).

(** Modelled from the spec: the formatting shared by [grub_sprintf],
    [grub_printf] and [grub_error] of grub/misc.h and grub/err.h, for the
    only conversion search.c uses: each [%s] is replaced by the next
    argument, every other character is copied. *)
Fixpoint format (fmt : string) (args : list string) : string :=
  match fmt with
  | EmptyString => EmptyString
  | String c rest =>
      if Ascii.eqb c "%" then
        match rest with
        | String d rest' =>
            if Ascii.eqb d "s" then
              match args with
              | a :: args' => a +:+ format rest' args'
              | [] => format rest' []
              end
            else String c (format rest args)
        | EmptyString => String c EmptyString
        end
      else String c (format rest args)
  end.

(** ** Library calls

    Each call is logged, and a call that can fail asks the platform.  A call
    that succeeds leaves [grub_errno] alone; whatever a close, a print or a
    variable write might leave there is overwritten by the assignment that
    ends each per-device test, so these are modelled as leaving it alone
    too. *)

Section Calls.
Variable pf : platform.

(** Modelled from the spec: [grub_device_open] of grub/device.h, "resource
    handle acquisition for a device identifier; may fail".  Whether it fails
    is the platform's answer; a failure leaves its code in [grub_errno]. *)
Definition grub_device_open (name : string) : M (option grub_device) :=
  emit (EvDeviceOpen name);;
  match pf_device_open pf name with
  | Ok _ => mret (Some {| dev_name := name |})
  | Err e => fail_with e;; mret None
  end.

(** Modelled from the spec: [grub_device_close], the release of a device
    handle. *)
Definition grub_device_close (dev : grub_device) : M unit :=
  emit (EvDeviceClose (dev_name dev)).

(** Modelled from the spec: [grub_fs_probe] of grub/fs.h, which "given an
    open device, identifies a filesystem type" or fails. *)
Definition grub_fs_probe (dev : grub_device) : M (option grub_fs) :=
  emit (EvFsProbe (dev_name dev));;
  match pf_fs_probe pf (dev_name dev) with
  | Ok fs => mret (Some fs)
  | Err e => fail_with e;; mret None
  end.

(** Modelled from the spec: the call [(QUID(fs)) (dev, &quid)] through the
    function pointer [f], one of the "functions to read its label string and
    its UUID string".  A code other than [GRUB_ERR_NONE] is also left in
    [grub_errno]. *)
Definition call_quid (f : grub_device -> grub_err_t * option string)
    (dev : grub_device) : M (option string) :=
  emit (EvFsQuid (dev_name dev));;
  let '(e, quid) := f dev in
  fail_with e;;
  mret quid.

(** Modelled from the spec: [grub_realloc (buf, len)] of grub/mm.h, the
    "growable buffer reused across iterations"; [true] for a non-null
    result. *)
Definition grub_realloc (len : N) : M bool :=
  emit (EvRealloc len);;
  match pf_realloc pf len with
  | Ok _ => mret true
  | Err e => fail_with e;; mret false
  end.

(** Modelled from the spec: [grub_free] of grub/mm.h. *)
Definition grub_free : M unit := emit EvFree.

(** Modelled from the spec: [grub_file_open] of grub/file.h, which
    "attempts to open a file; success indicates presence". *)
Definition grub_file_open (path : string) : M (option grub_file) :=
  emit (EvFileOpen path);;
  match pf_file_open pf path with
  | Ok _ => mret (Some {| file_name := path |})
  | Err e => fail_with e;; mret None
  end.

(** Modelled from the spec: [grub_file_close], the release of a file
    handle. *)
Definition grub_file_close (file : grub_file) : M unit :=
  emit (EvFileClose (file_name file)).

(** Modelled from the spec: [grub_env_set] of grub/env.h, a write into the
    "process-wide key/value environment". *)
Definition grub_env_set (var val : string) : M unit :=
  emit (EvEnvSet var val);;
  env_insert var val.

(** Modelled from the spec: [grub_printf] of grub/misc.h, which emits the
    formatted text "to the output stream". *)
Definition grub_printf (fmt : string) (args : list string) : M unit :=
  emit (EvPrintf (format fmt args)).

(** Modelled from the spec: [grub_sprintf] of grub/misc.h; the value is
    the text stored in the buffer. *)
Definition grub_sprintf (fmt : string) (args : list string) : string :=
  format fmt args.

(** Modelled from the spec: [grub_error (n, fmt, ...)] of grub/err.h, which
    sets the "global transient error signal" to [n] and returns [n]. *)
Definition grub_error (n : grub_err_t) (fmt : string) (args : list string)
    : M grub_err_t :=
  emit (EvError n (format fmt args));;
  set_errno n;;
  mret n.

(** Modelled from the spec: [grub_device_iterate] of grub/device.h, the
    device enumerator.  It visits the platform's devices in order, calls
    the per-device test on each and stops at the first test that returns
    non-zero.  The variables of the enclosing function that the test
    updates ([count], [buf]) are threaded through as [ctx]. *)
Fixpoint iterate_names {L : Type} (hook : string -> L -> M (Z * L))
    (names : list string) (ctx : L) : M (Z * L) :=
  match names with
  | [] => mret (0%Z, ctx)
  | name :: rest =>
      r ← hook name ctx;
      if truthy r.1 then mret (1%Z, r.2)
      else iterate_names hook rest r.2
  end.

(** Modelled from the spec: [grub_device_iterate] itself, run on the
    platform's devices. *)
Definition grub_device_iterate {L : Type} (hook : string -> L -> M (Z * L))
    (ctx : L) : M (Z * L) :=
  iterate_names hook (pf_devices pf) ctx.

End Calls.

(** ** Command options *)

(** Argument kinds of grub/lib/arg.h. *)
Inductive grub_arg_type :=
| ARG_TYPE_NONE
| ARG_TYPE_STRING
| ARG_TYPE_INT.

(** [GRUB_ARG_OPTION_OPTIONAL] of grub/lib/arg.h.  Nothing below depends on
    its value. *)
Definition GRUB_ARG_OPTION_OPTIONAL : Z := 2.

(** [struct grub_arg_option]: long name, short name, flags, help text,
    argument name and argument type. *)
Record grub_arg_option := {
  longarg : string;
  shortarg : ascii;
  flags : Z;
  doc : string;
  arg_name : option string;
  arg_type : grub_arg_type
}.

(** The table [options[]], without its all-zero terminator. *)
Definition options_table : list grub_arg_option :=
  [ {| longarg := "file"; shortarg := "f"; flags := 0;
       doc := "search devices by a file (default)";
       arg_name := None; arg_type := ARG_TYPE_NONE |};
    {| longarg := "label"; shortarg := "l"; flags := 0;
       doc := "search devices by a filesystem label";
       arg_name := None; arg_type := ARG_TYPE_NONE |};
    {| longarg := "fs-uuid"; shortarg := "u"; flags := 0;
       doc := "search devices by a filesystem UUID";
       arg_name := None; arg_type := ARG_TYPE_NONE |};
    {| longarg := "set"; shortarg := "s"; flags := GRUB_ARG_OPTION_OPTIONAL;
       doc := "set a variable to the first device found";
       arg_name := Some "VAR"; arg_type := ARG_TYPE_STRING |};
    {| longarg := "no-floppy"; shortarg := "n"; flags := 0;
       doc := "do not probe any floppy drive";
       arg_name := None; arg_type := ARG_TYPE_NONE |} ].

(** [enum options]: the index of each option in the parsed state. *)
Inductive options :=
| SEARCH_FILE
| SEARCH_LABEL
| SEARCH_FS_UUID
| SEARCH_SET
| SEARCH_NO_FLOPPY.

(** [struct grub_arg_list]: whether the option was given, and its argument. *)
Record grub_arg_list := {
  set : Z;
  arg : option string
}.

(** ** The search functions *)

(** The variables of [search_file] that its per-device test updates.
    [count] is a C [int]; it would take 2^31 matching devices to overflow
    it, so the counters are kept as unbounded integers.  [buf] is the path
    buffer: [None] for the null pointer, otherwise its contents. *)
Record file_ctx := {
  count : Z;
  buf : option string
}.

Section Search.
Variable pf : platform.

(** The test both per-device functions make on [name] when floppy drives are
    to be skipped.  [&&] stops at the first false operand, so [name[2]] is
    read only when the two characters before it are not the terminator. *)
Definition floppy_name (name : string) : bool :=
  Ascii.eqb (char_at name 0) "f" && Ascii.eqb (char_at name 1) "d" &&
  (Ascii.leb "0" (char_at name 2) && Ascii.leb (char_at name 2) "9").

(** The macro [QUID(x)]. *)
Definition QUID (is_uuid : Z) (x : grub_fs) :=
  if truthy is_uuid then uuid x else label x.

(** [iterate_device] of [search_fs].  [count] is the variable of the
    enclosing function; the value returned is [abort] with the new [count]. *)
Definition search_fs_iterate_device (key : string) (var : option string)
    (no_floppy is_uuid : Z) (name : string) (count : Z) : M (Z * Z) :=
  if truthy no_floppy && floppy_name name then mret (0%Z, count)
  else
    dev ← grub_device_open pf name;
    r ← match dev with
        | Some dev =>
            fs ← grub_fs_probe pf dev;
            r ← match fs with
                | Some fs =>
                    match QUID is_uuid fs with
                    | Some f =>
                        quid ← call_quid f dev;
                        errno ← get_errno;
                        match bool_decide (errno = GRUB_ERR_NONE), quid with
                        | true, Some q =>
                            r ← (if (grub_strcmp q key =? 0)%Z then
                                   match var with
                                   | Some v =>
                                       grub_env_set v name;;
                                       mret (1%Z, (count + 1)%Z)
                                   | None =>
                                       grub_printf " %s" [name];;
                                       mret (0%Z, (count + 1)%Z)
                                   end
                                 else mret (0%Z, count));
                            grub_free;;
                            mret r
                        | _, _ => mret (0%Z, count)
                        end
                    | None => mret (0%Z, count)
                    end
                | None => mret (0%Z, count)
                end;
            grub_device_close dev;;
            mret r
        | None => mret (0%Z, count)
        end;
    set_errno GRUB_ERR_NONE;;
    mret r.

Definition search_fs (key : string) (var : option string)
    (no_floppy is_uuid : Z) : M unit :=
  r ← grub_device_iterate pf
        (search_fs_iterate_device key var no_floppy is_uuid) 0%Z;
  if (r.2 =? 0)%Z then
    grub_error GRUB_ERR_FILE_NOT_FOUND "no such device: %s" [key];;
    mret tt
  else mret tt.

(** [iterate_device] of [search_file].  [ctx] holds [count] and [buf] of the
    enclosing function. *)
Definition search_file_iterate_device (key : string) (var : option string)
    (no_floppy : Z) (name : string) (ctx : file_ctx) : M (Z * file_ctx) :=
  if truthy no_floppy && floppy_name name then mret (0%Z, ctx)
  else
    let len := (grub_strlen name + 2 + grub_strlen key + 1)%N in
    p ← grub_realloc pf len;
    if negb p then mret (1%Z, ctx)
    else
      let buf := grub_sprintf "(%s)%s" [name; key] in
      file ← grub_file_open pf buf;
      r ← match file with
          | Some file =>
              abort ← match var with
                      | Some v => grub_env_set v name;; mret 1%Z
                      | None => grub_printf " %s" [name];; mret 0%Z
                      end;
              grub_file_close file;;
              mret (abort, (count ctx + 1)%Z)
          | None => mret (0%Z, count ctx)
          end;
      set_errno GRUB_ERR_NONE;;
      mret (r.1, {| count := r.2; buf := Some buf |}).

Definition search_file (key : string) (var : option string)
    (no_floppy : Z) : M unit :=
  r ← grub_device_iterate pf
        (search_file_iterate_device key var no_floppy)
        {| count := 0; buf := None |};
  grub_free;;
  errno ← get_errno;
  if bool_decide (errno = GRUB_ERR_NONE) && (count r.2 =? 0)%Z then
    grub_error GRUB_ERR_FILE_NOT_FOUND "no such file: %s" [key];;
    mret tt
  else mret tt.

(** [grub_cmd_search].  [state] is the parsed option state [cmd->state],
    indexed by [enum options]; [args] holds the [argc] positional arguments
    and [args[0]] is the first of them. *)
Definition grub_cmd_search (state : options -> grub_arg_list) (argc : Z)
    (args : list string) : M grub_err_t :=
  if (argc =? 0)%Z then
    grub_error GRUB_ERR_INVALID_COMMAND "no argument specified" []
  else
    let var :=
      if truthy (set (state SEARCH_SET)) then
        Some (default "root" (arg (state SEARCH_SET)))
      else None in
    let args0 := default EmptyString (head args) in
    if truthy (set (state SEARCH_LABEL)) then
      search_fs args0 var (set (state SEARCH_NO_FLOPPY)) 0;;
      get_errno
    else if truthy (set (state SEARCH_FS_UUID)) then
      search_fs args0 var (set (state SEARCH_NO_FLOPPY)) 1;;
      get_errno
    else if truthy (set (state SEARCH_FILE)) then
      search_file args0 var (set (state SEARCH_NO_FLOPPY));;
      get_errno
    else
      grub_error GRUB_ERR_INVALID_COMMAND "unspecified search type" [].

End Search.

(** * Properties *)

(** ** What a trace shows *)

(** The texts written with [grub_printf]. *)
Definition printed (t : list event) : list string :=
  omap (fun e => match e with EvPrintf x => Some x | _ => None end) t.

(** The variable writes made with [grub_env_set]. *)
Definition env_writes (t : list event) : list (string * string) :=
  omap (fun e => match e with EvEnvSet x v => Some (x, v) | _ => None end) t.

(** The devices handed to [grub_device_open]. *)
Definition devices_opened (t : list event) : list string :=
  omap (fun e => match e with EvDeviceOpen n => Some n | _ => None end) t.

(** The paths handed to [grub_file_open]. *)
Definition files_opened (t : list event) : list string :=
  omap (fun e => match e with EvFileOpen p => Some p | _ => None end) t.

(** The errors raised with [grub_error]. *)
Definition errors_raised (t : list event) : list (grub_err_t * string) :=
  omap (fun e => match e with EvError n m => Some (n, m) | _ => None end) t.

(** ** What the platform holds *)

Section Attributes.
Variable pf : platform.

(** The per-device tests return at once on [name]. *)
Definition skipped (no_floppy : Z) (name : string) : bool :=
  truthy no_floppy && floppy_name name.

(** The label (or UUID) of device [name], when the device opens, a
    filesystem is recognised on it, that filesystem has the accessor and the
    accessor yields a string without error. *)
Definition fs_quid (is_uuid : Z) (name : string) : option string :=
  match pf_device_open pf name with
  | Ok _ =>
      match pf_fs_probe pf name with
      | Ok fs =>
          match QUID is_uuid fs with
          | Some f =>
              match f {| dev_name := name |} with
              | (GRUB_ERR_NONE, Some q) => Some q
              | _ => None
              end
          | None => None
          end
      | Err _ => None
      end
  | Err _ => None
  end.

(** Device [name] takes part in the scan and its label (or UUID) is [key]. *)
Definition fs_match (key : string) (no_floppy is_uuid : Z) (name : string)
    : bool :=
  negb (skipped no_floppy name) &&
  bool_decide (fs_quid is_uuid name = Some key).

(** The device-qualified path of [key] on device [name]. *)
Definition composite (name key : string) : string :=
  "(" +:+ name +:+ ")" +:+ key.

(** The file [key] can be opened on device [name]. *)
Definition file_present (key name : string) : bool :=
  match pf_file_open pf (composite name key) with
  | Ok _ => true
  | Err _ => false
  end.

(** Device [name] takes part in the scan and holds the file [key]. *)
Definition file_match (key : string) (no_floppy : Z) (name : string) : bool :=
  negb (skipped no_floppy name) && file_present key name.

(** The size requested for the path buffer on device [name]. *)
Definition path_len (name key : string) : N :=
  (grub_strlen name + 2 + grub_strlen key + 1)%N.

(** The test stops the enumeration on a match when a variable is to be
    set. *)
Definition fs_stop (key : string) (var : option string)
    (no_floppy is_uuid : Z) (name : string) : bool :=
  fs_match key no_floppy is_uuid name && bool_decide (is_Some var).

(** Growing the path buffer for device [name] fails. *)
Definition alloc_fails (key name : string) : bool :=
  match pf_realloc pf (path_len name key) with
  | Ok _ => false
  | Err _ => true
  end.

(** Device [name] takes part in the scan and its path could be built. *)
Definition file_probed (key : string) (no_floppy : Z) (name : string) : bool :=
  negb (skipped no_floppy name) && negb (alloc_fails key name).

(** Device [name] is reported (or bound) by the file test. *)
Definition file_hit (key : string) (no_floppy : Z) (name : string) : bool :=
  file_probed key no_floppy name && file_present key name.

(** The file test stops the enumeration on [name]: the buffer could not be
    grown, or the file is there and a variable is to be set. *)
Definition file_stop (key : string) (var : option string) (no_floppy : Z)
    (name : string) : bool :=
  negb (skipped no_floppy name) &&
  (alloc_fails key name || (file_present key name && bool_decide (is_Some var))).

End Attributes.

(** ** The enumeration, on the side of the platform *)

(** The devices the enumerator reaches when the test stops it on the first
    device satisfying [stop]: that device and everything before it. *)
Fixpoint visited (stop : string -> bool) (names : list string) : list string :=
  match names with
  | [] => []
  | n :: rest => n :: (if stop n then [] else visited stop rest)
  end.


(** ** Outcomes *)

(** [grub_error] was called with [GRUB_ERR_FILE_NOT_FOUND]. *)
Definition raised_not_found (t : list event) : Prop :=
  exists msg, (GRUB_ERR_FILE_NOT_FOUND, msg) ∈ errors_raised t.

(** The variable [grub_cmd_search] passes on as [var]. *)
Definition binding_target (state : options -> grub_arg_list) : option string :=
  if truthy (set (state SEARCH_SET)) then
    Some (default "root" (arg (state SEARCH_SET)))
  else None.

(** None of [-f], [-l], [-u] was given. *)
Definition no_mode (state : options -> grub_arg_list) : Prop :=
  truthy (set (state SEARCH_LABEL)) = false /\
  truthy (set (state SEARCH_FS_UUID)) = false /\
  truthy (set (state SEARCH_FILE)) = false.

(** Without a variable to set, what is printed is the list of all matching
    devices, whatever the mode. *)
Definition emits_all_matches (pf : platform) (key : string) (no_floppy : Z)
    (s : globals) : Prop :=
  (forall is_uuid,
     printed (evs (search_fs pf key None no_floppy is_uuid s)) =
     map (String.append " ")
         (List.filter (fs_match pf key no_floppy is_uuid) (pf_devices pf))) /\
  printed (evs (search_file pf key None no_floppy s)) =
  map (String.append " ")
      (List.filter (file_match pf key no_floppy) (pf_devices pf)).

(** An invocation without a key, with an empty key or without a mode is
    refused before any device or file is opened. *)
Definition rejects_bad_invocation (pf : platform)
    (state : options -> grub_arg_list) (argc : Z) (args : list string)
    (s : globals) : Prop :=
  (argc = 0%Z \/ head args = Some EmptyString \/ no_mode state) ->
  let r := grub_cmd_search pf state argc args s in
  val r = GRUB_ERR_INVALID_COMMAND /\
  devices_opened (evs r) = [] /\
  files_opened (evs r) = [].

(** ** Sample platforms and invocations *)

(** A state with no error pending and an empty variable store. *)
Definition s_clean : globals := {| grub_errno := GRUB_ERR_NONE; env := ∅ |}.

(** The parsed options: [-f], [-l], [-u], [-s] with its argument, [-n]. *)
Definition arg_state (f l u s : Z) (v : option string) (n : Z)
    (o : options) : grub_arg_list :=
  match o with
  | SEARCH_FILE => {| set := f; arg := None |}
  | SEARCH_LABEL => {| set := l; arg := None |}
  | SEARCH_FS_UUID => {| set := u; arg := None |}
  | SEARCH_SET => {| set := s; arg := v |}
  | SEARCH_NO_FLOPPY => {| set := n; arg := None |}
  end.

(** A filesystem with a label and no UUID accessor. *)
Definition labelled (l : string) : grub_fs :=
  {| fs_name := "ext2";
     label := Some (fun _ => (GRUB_ERR_NONE, Some l));
     uuid := None |}.

(** A floppy and three disks.  [hd2] does not open, [hd0] carries no
    filesystem, [fd0] and [hd1] are both labelled MYUSB and both hold
    /grub.cfg. *)
Definition pf_demo : platform := {|
  pf_devices := ["fd0"; "hd0"; "hd2"; "hd1"];
  pf_device_open := fun n =>
    if String.eqb n "hd2" then Err GRUB_ERR_UNKNOWN_DEVICE else Ok tt;
  pf_fs_probe := fun n =>
    if String.eqb n "hd1" || String.eqb n "fd0" then Ok (labelled "MYUSB")
    else Err GRUB_ERR_UNKNOWN_FS;
  pf_realloc := fun _ => Ok tt;
  pf_file_open := fun p =>
    if String.eqb p "(hd1)/grub.cfg" || String.eqb p "(fd0)/grub.cfg"
    then Ok tt else Err GRUB_ERR_FILE_NOT_FOUND
|}.

(** Three disks that all hold /grub.cfg, on a heap that cannot supply
    sixteen bytes: the path of [hd10] does not fit. *)
Definition pf_oom : platform := {|
  pf_devices := ["hd0"; "hd10"; "hd1"];
  pf_device_open := fun _ => Ok tt;
  pf_fs_probe := fun _ => Err GRUB_ERR_UNKNOWN_FS;
  pf_realloc := fun len =>
    if (16 <=? len)%N then Err GRUB_ERR_OUT_OF_MEMORY else Ok tt;
  pf_file_open := fun _ => Ok tt
|}.

(** ** Handles in a trace *)

(** A handle the command holds: an open device or an open file. *)
Inductive handle :=
| HDevice (name : string)
| HFile (path : string).

#[global] Instance handle_eq_dec : EqDecision handle.
Proof. solve_decision. Defined.

(** Follows the handle held through a trace, starting with [h].  An open
    that the platform grants (the same answer the call itself got) yields the
    handle; probing, reading the label and closing need the handle of that
    very device or file; nothing may be opened while a handle is held.  The
    result is the handle held at the end, or [None] when the trace breaks
    one of these rules. *)
Fixpoint handles_after (pf : platform) (h : option handle) (t : list event)
    : option (option handle) :=
  match t with
  | [] => Some h
  | e :: t' =>
      match e with
      | EvDeviceOpen n =>
          if bool_decide (h = None) then
            handles_after pf
              (match pf_device_open pf n with
               | Ok _ => Some (HDevice n)
               | Err _ => None
               end) t'
          else None
      | EvFsProbe n | EvFsQuid n =>
          if bool_decide (h = Some (HDevice n)) then handles_after pf h t'
          else None
      | EvDeviceClose n =>
          if bool_decide (h = Some (HDevice n)) then handles_after pf None t'
          else None
      | EvFileOpen p =>
          if bool_decide (h = None) then
            handles_after pf
              (match pf_file_open pf p with
               | Ok _ => Some (HFile p)
               | Err _ => None
               end) t'
          else None
      | EvFileClose p =>
          if bool_decide (h = Some (HFile p)) then handles_after pf None t'
          else None
      | _ => handles_after pf h t'
      end
  end.

(** ** What a search leaves behind *)

(** What the two search functions have in common, whatever the state [s]
    they start from, [r] being their result: every handle is released; the
    store is the old one with the writes applied; with a variable to set
    nothing is printed and without one nothing is written; what is printed
    or written names a device of the platform that takes part in the
    scan. *)
Definition search_effects (pf : platform) (var : option string)
    (no_floppy : Z) (s : globals) (r : res unit) : Prop :=
  handles_after pf None (evs r) = Some None /\
  env (st r) = foldl (fun m w => <[w.1 := w.2]> m) (env s) (env_writes (evs r)) /\
  (is_Some var -> printed (evs r) = []) /\
  (var = None -> env_writes (evs r) = []) /\
  Forall (fun x => exists n, n ∈ pf_devices pf /\
             skipped no_floppy n = false /\ x = " " +:+ n)
         (printed (evs r)) /\
  Forall (fun w => exists n, n ∈ pf_devices pf /\
             skipped no_floppy n = false /\ var = Some w.1 /\ w.2 = n)
         (env_writes (evs r)).

(** ** Strings *)

Lemma append_empty_r (s : string) : s +:+ EmptyString = s.
Proof.
  induction s as [|c s IH]; [done |].
  change (String c s +:+ EmptyString) with (String c (s +:+ EmptyString)).
  by rewrite IH.
Qed.

Lemma format_path (name key : string) :
  format "(%s)%s" [name; key] = composite name key.
Proof. unfold composite. simpl. by rewrite append_empty_r. Qed.

Lemma string_compare_refl (s : string) : String.compare s s = Eq.
Proof.
  pose proof (String.compare_antisym s s) as H.
  destruct (String.compare s s); simpl in H; congruence.
Qed.

Lemma grub_strcmp_eq (s1 s2 : string) :
  (grub_strcmp s1 s2 =? 0)%Z = bool_decide (s1 = s2).
Proof.
  unfold grub_strcmp.
  destruct (String.compare s1 s2) eqn:E.
  - apply String.compare_eq_iff in E. subst. by rewrite bool_decide_eq_true_2.
  - rewrite bool_decide_eq_false_2; [done |].
    intros ->. by rewrite string_compare_refl in E.
  - rewrite bool_decide_eq_false_2; [done |].
    intros ->. by rewrite string_compare_refl in E.
Qed.

(** ** The monad, unfolded *)

Ltac run :=
  cbv [mbind mret M_bind M_ret emit get_errno set_errno env_insert fail_with
       grub_device_open grub_device_close grub_fs_probe call_quid
       grub_realloc grub_free grub_file_open grub_file_close grub_env_set
       grub_printf grub_sprintf grub_error];
  simpl.

Lemma bind_val {A B} (m : M A) (k : A -> M B) (s : globals) :
  (m ≫= k) s =
  Res (val (k (val (m s)) (st (m s)))) (st (k (val (m s)) (st (m s))))
      (evs (m s) ++ evs (k (val (m s)) (st (m s)))).
Proof.
  unfold mbind, M_bind. destruct (m s) as [a s1 t1]. simpl.
  by destruct (k a s1).
Qed.

Section FsStep.
Variable pf : platform.
Variables (key : string) (var : option string) (no_floppy is_uuid : Z).

Lemma fs_step_skipped (name : string) (c : Z) (s : globals) :
  skipped no_floppy name = true ->
  search_fs_iterate_device pf key var no_floppy is_uuid name c s
  = Res (0%Z, c) s [].
Proof.
  unfold skipped, search_fs_iterate_device. intros ->. reflexivity.
Qed.

Lemma fs_step (name : string) (c : Z) (s : globals) :
  grub_errno s = GRUB_ERR_NONE ->
  let r := search_fs_iterate_device pf key var no_floppy is_uuid name c s in
  let hit := fs_match pf key no_floppy is_uuid name in
  val r = ((if hit && bool_decide (is_Some var) then 1 else 0)%Z,
           (if hit then c + 1 else c)%Z) /\
  grub_errno (st r) = GRUB_ERR_NONE /\
  env (st r) = (match var with
                | Some v => if hit then <[v := name]> (env s) else env s
                | None => env s
                end) /\
  printed (evs r) = (if hit && negb (bool_decide (is_Some var))
                     then [" " +:+ name] else []) /\
  env_writes (evs r) = (match var with
                        | Some v => if hit then [(v, name)] else []
                        | None => []
                        end) /\
  devices_opened (evs r) = (if skipped no_floppy name then [] else [name]) /\
  files_opened (evs r) = [] /\
  errors_raised (evs r) = [].
Proof.
  intros Hclean r hit. subst r hit.
  unfold fs_match, fs_quid.
  destruct (skipped no_floppy name) eqn:Hskip.
  { rewrite fs_step_skipped by done. simpl. by destruct var. }
  unfold search_fs_iterate_device. unfold skipped in Hskip. rewrite Hskip.
  destruct s as [e0 env0]. simpl in Hclean. subst e0.
  run.
  destruct (pf_device_open pf name) as [[]|e1]; run.
  2:{ destruct (bool_decide (e1 = GRUB_ERR_NONE)); simpl; by destruct var. }
  destruct (pf_fs_probe pf name) as [fs|e2]; run.
  2:{ destruct (bool_decide (e2 = GRUB_ERR_NONE)); simpl; by destruct var. }
  destruct (QUID is_uuid fs) as [f|]; run.
  2:{ by destruct var. }
  destruct (f {| dev_name := name |}) as [e3 quid]; run.
  destruct e3; simpl; try (by destruct var; destruct quid).
  destruct quid as [q|]; simpl; [| by destruct var].
  rewrite grub_strcmp_eq.
  destruct (decide (q = key)) as [->|Hne].
  - rewrite !bool_decide_eq_true_2 by done.
    destruct var as [v|]; simpl; [done |].
    rewrite append_empty_r. done.
  - rewrite !bool_decide_eq_false_2 by congruence.
    simpl. by destruct var.
Qed.

End FsStep.

(** ** The enumeration *)

Lemma visited_none (stop : string -> bool) (names : list string) :
  Forall (fun n => stop n = false) names -> visited stop names = names.
Proof.
  induction 1 as [|n rest Hn _ IH]; simpl; [done |]. by rewrite Hn, IH.
Qed.

Lemma visited_first (stop : string -> bool) (pre post : list string)
    (d : string) :
  Forall (fun n => stop n = false) pre -> stop d = true ->
  visited stop (pre ++ d :: post) = pre ++ [d].
Proof.
  induction 1 as [|n rest Hn _ IH]; simpl; intros Hd.
  - by rewrite Hd.
  - by rewrite Hn, IH.
Qed.

Lemma existsb_none (stop : string -> bool) (names : list string) :
  Forall (fun n => stop n = false) names -> existsb stop names = false.
Proof. induction 1 as [|n rest Hn _ IH]; simpl; [done |]. by rewrite Hn. Qed.

Lemma iterate_names_cons {L : Type} (hook : string -> L -> M (Z * L))
    (n : string) (rest : list string) (ctx : L) (s : globals) :
  iterate_names hook (n :: rest) ctx s =
  let r := hook n ctx s in
  if truthy (val r).1 then Res (1%Z, (val r).2) (st r) (evs r ++ [])
  else
    let r' := iterate_names hook rest (val r).2 (st r) in
    Res (val r') (st r') (evs r ++ evs r').
Proof.
  simpl. rewrite bind_val. simpl.
  by destruct (truthy (val (hook n ctx s)).1).
Qed.

(** An enumeration that was not stopped on [pre] goes on with what
    follows. *)
Lemma iterate_names_app {L : Type} (hook : string -> L -> M (Z * L))
    (pre post : list string) (ctx : L) (s : globals) :
  (val (iterate_names hook pre ctx s)).1 = 0%Z ->
  iterate_names hook (pre ++ post) ctx s =
  let b := iterate_names hook pre ctx s in
  let r := iterate_names hook post (val b).2 (st b) in
  Res (val r) (st r) (evs b ++ evs r).
Proof.
  revert ctx s. induction pre as [|n pre IH]; intros ctx s Hb.
  - cbn [app]. simpl. by destruct (iterate_names hook post ctx s).
  - cbn [app]. rewrite iterate_names_cons in Hb. rewrite !iterate_names_cons.
    cbv zeta in *.
    destruct (truthy (val (hook n ctx s)).1) eqn:Ht; [done |].
    cbn [val] in Hb. rewrite (IH _ _ Hb). cbn [val st evs].
    by rewrite app_assoc.
Qed.

Lemma printed_app (t1 t2 : list event) :
  printed (t1 ++ t2) = printed t1 ++ printed t2.
Proof. apply omap_app. Qed.

Lemma env_writes_app (t1 t2 : list event) :
  env_writes (t1 ++ t2) = env_writes t1 ++ env_writes t2.
Proof. apply omap_app. Qed.

Lemma devices_opened_app (t1 t2 : list event) :
  devices_opened (t1 ++ t2) = devices_opened t1 ++ devices_opened t2.
Proof. apply omap_app. Qed.

Lemma files_opened_app (t1 t2 : list event) :
  files_opened (t1 ++ t2) = files_opened t1 ++ files_opened t2.
Proof. apply omap_app. Qed.

Lemma errors_raised_app (t1 t2 : list event) :
  errors_raised (t1 ++ t2) = errors_raised t1 ++ errors_raised t2.
Proof. apply omap_app. Qed.

Ltac split_trace :=
  rewrite ?printed_app, ?env_writes_app, ?devices_opened_app,
    ?files_opened_app, ?errors_raised_app, ?app_nil_r.

Lemma truthy_flag (b : bool) : truthy (if b then 1 else 0) = b.
Proof. by destruct b. Qed.

Section FsScan.
Variable pf : platform.
Variables (key : string) (var : option string) (no_floppy is_uuid : Z).

Local Abbreviation hook := (search_fs_iterate_device pf key var no_floppy is_uuid).
Local Abbreviation hit := (fs_match pf key no_floppy is_uuid).
Local Abbreviation stop := (fs_stop pf key var no_floppy is_uuid).

Lemma fs_match_not_skipped (n : string) :
  hit n = true -> skipped no_floppy n = false.
Proof. unfold fs_match. by destruct (skipped no_floppy n). Qed.

Lemma fs_scan (names : list string) (c : Z) (s : globals) :
  grub_errno s = GRUB_ERR_NONE ->
  let r := iterate_names hook names c s in
  let vis := visited stop names in
  val r = ((if existsb stop names then 1 else 0)%Z,
           (c + Z.of_nat (length (List.filter hit vis)))%Z) /\
  grub_errno (st r) = GRUB_ERR_NONE /\
  env (st r) = foldl (fun m w => <[w.1 := w.2]> m) (env s) (env_writes (evs r)) /\
  printed (evs r) = (if bool_decide (is_Some var) then []
                     else map (String.append " ") (List.filter hit vis)) /\
  env_writes (evs r) = (match var with
                        | Some v => map (pair v) (List.filter hit vis)
                        | None => []
                        end) /\
  devices_opened (evs r) =
    List.filter (fun n => negb (skipped no_floppy n)) vis /\
  files_opened (evs r) = [] /\
  errors_raised (evs r) = [].
Proof.
  revert c s. induction names as [|n rest IH]; intros c s Hclean.
  { simpl. rewrite Z.add_0_r. repeat split; by destruct var. }
  intros r vis. subst r vis. rewrite iterate_names_cons. cbv zeta.
  destruct (fs_step pf key var no_floppy is_uuid n c s Hclean)
    as (Hval & Herr & Henv & Hpr & Hwr & Hop & Hfi & Her).
  destruct (hook n c s) as [[a c1] s1 t1].
  cbn [val st evs fst snd] in *. injection Hval as -> ->.
  rewrite truthy_flag. fold (stop n).
  cbn [visited existsb List.filter].
  destruct (stop n) eqn:Hstop.
  - unfold fs_stop in Hstop. apply andb_prop in Hstop as [Hhit Hv].
    apply bool_decide_eq_true_1 in Hv as [v ->].
    rewrite Hhit in *. rewrite (fs_match_not_skipped n Hhit) in *.
    cbn [val st evs fst snd orb negb List.filter length map]. split_trace.
    rewrite Hwr, Hop, Hfi, Her, Hpr, Herr, Henv. simpl. done.
  - destruct (IH (if hit n then (c + 1)%Z else c) s1 Herr)
      as (Hval' & Herr' & Henv' & Hpr' & Hwr' & Hop' & Hfi' & Her').
    destruct (iterate_names hook rest _ s1) as [[a2 c2] s2 t2].
    cbn [val st evs fst snd orb] in *. injection Hval' as -> ->.
    split_trace.
    rewrite Herr', Henv', Hpr', Hwr', Hop', Hfi', Her', Hpr, Hwr, Hop, Hfi, Her.
    rewrite foldl_app, Henv. unfold fs_stop in Hstop.
    destruct (hit n) eqn:Hhit.
    + rewrite (fs_match_not_skipped n Hhit).
      destruct var as [v|]; [done |]. simpl. repeat split; try done.
      f_equal. lia.
    + destruct (skipped no_floppy n); destruct var as [v|]; simpl;
        repeat split; done.
Qed.

End FsScan.

Section FileScan.
Variable pf : platform.
Variables (key : string) (var : option string) (no_floppy : Z).

Local Abbreviation hook := (search_file_iterate_device pf key var no_floppy).
Local Abbreviation probed := (file_probed pf key no_floppy).
Local Abbreviation hit := (file_hit pf key no_floppy).
Local Abbreviation stop := (file_stop pf key var no_floppy).

Lemma file_step_skipped (name : string) (ctx : file_ctx) (s : globals) :
  skipped no_floppy name = true ->
  hook name ctx s = Res (0%Z, ctx) s [].
Proof.
  unfold skipped, search_file_iterate_device. intros ->. reflexivity.
Qed.

Lemma file_step_alloc_fails (name : string) (ctx : file_ctx) (s : globals)
    (e : grub_err_t) :
  skipped no_floppy name = false ->
  pf_realloc pf (path_len name key) = Err e ->
  hook name ctx s =
  Res (1%Z, ctx)
      {| grub_errno := if bool_decide (e = GRUB_ERR_NONE) then grub_errno s
                       else e;
         env := env s |}
      [EvRealloc (path_len name key)].
Proof.
  unfold skipped, search_file_iterate_device, path_len. intros -> Ha.
  run. rewrite Ha. run. destruct s as [e0 env0].
  by destruct (bool_decide (e = GRUB_ERR_NONE)).
Qed.

Lemma file_step_probed (name : string) (ctx : file_ctx) (s : globals) :
  probed name = true ->
  let r := hook name ctx s in
  let present := file_present pf key name in
  val r = ((if present && bool_decide (is_Some var) then 1 else 0)%Z,
           {| count := (if present then count ctx + 1 else count ctx)%Z;
              buf := Some (composite name key) |}) /\
  grub_errno (st r) = GRUB_ERR_NONE /\
  env (st r) = (match var with
                | Some v => if present then <[v := name]> (env s) else env s
                | None => env s
                end) /\
  printed (evs r) = (if present && negb (bool_decide (is_Some var))
                     then [" " +:+ name] else []) /\
  env_writes (evs r) = (match var with
                        | Some v => if present then [(v, name)] else []
                        | None => []
                        end) /\
  files_opened (evs r) = [composite name key] /\
  devices_opened (evs r) = [] /\
  errors_raised (evs r) = [] /\
  exists t, evs r = EvRealloc (path_len name key)
                    :: EvFileOpen (composite name key) :: t.
Proof.
  intros Hp r present. subst r present.
  unfold file_probed, alloc_fails, file_present in *.
  apply andb_prop in Hp as [Hs Ha]. apply negb_true_iff in Hs.
  unfold skipped in Hs. unfold search_file_iterate_device.
  rewrite Hs. fold (path_len name key).
  destruct (pf_realloc pf (path_len name key)) as [[]|] eqn:Hr; [| done].
  run. rewrite Hr. run. rewrite append_empty_r.
  change (String "(" (name +:+ String ")" key)) with (composite name key).
  destruct (pf_file_open pf (composite name key)) as [[]|e1]; run.
  - destruct var as [v|]; simpl; [by eauto 10 |].
    rewrite append_empty_r. by eauto 10.
  - destruct (bool_decide (e1 = GRUB_ERR_NONE)); simpl;
      destruct var; by eauto 10.
Qed.

Lemma file_scan (names : list string) (ctx : file_ctx) (s : globals) :
  let r := iterate_names hook names ctx s in
  let vis := visited stop names in
  (val r).1 = (if existsb stop names then 1 else 0)%Z /\
  count (val r).2 =
    (count ctx + Z.of_nat (length (List.filter hit vis)))%Z /\
  env (st r) = foldl (fun m w => <[w.1 := w.2]> m) (env s) (env_writes (evs r)) /\
  printed (evs r) = (if bool_decide (is_Some var) then []
                     else map (String.append " ") (List.filter hit vis)) /\
  env_writes (evs r) = (match var with
                        | Some v => map (pair v) (List.filter hit vis)
                        | None => []
                        end) /\
  files_opened (evs r) =
    map (fun n => composite n key) (List.filter probed vis) /\
  devices_opened (evs r) = [] /\
  errors_raised (evs r) = [].
Proof.
  revert ctx s. induction names as [|n rest IH]; intros ctx s.
  { simpl. rewrite Z.add_0_r. repeat split; by destruct var. }
  intros r vis. subst r vis. rewrite iterate_names_cons. cbv zeta.
  cbn [visited existsb List.filter].
  destruct (skipped no_floppy n) eqn:Hs.
  { assert (stop n = false) as -> by (unfold file_stop; by rewrite Hs).
    assert (hit n = false) as ->
      by (unfold file_hit, file_probed; by rewrite Hs).
    assert (probed n = false) as -> by (unfold file_probed; by rewrite Hs).
    rewrite file_step_skipped by done.
    cbn [val st evs fst snd truthy Z.eqb negb andb orb app]. apply IH. }
  destruct (alloc_fails pf key n) eqn:Ha.
  { assert (stop n = true) as -> by (unfold file_stop; by rewrite Hs, Ha).
    assert (hit n = false) as ->
      by (unfold file_hit, file_probed; by rewrite Hs, Ha).
    assert (probed n = false) as -> by (unfold file_probed; by rewrite Hs, Ha).
    unfold alloc_fails in Ha.
    destruct (pf_realloc pf (path_len n key)) as [|e] eqn:Hr; [done |].
    rewrite (file_step_alloc_fails n ctx s e Hs Hr).
    cbn [val st evs fst snd truthy Z.eqb negb andb orb List.filter length map
         env app].
    rewrite Z.add_0_r. repeat split; by destruct var. }
  assert (probed n = true) as Hp
    by (unfold file_probed; by rewrite Hs, Ha).
  assert (stop n = file_present pf key n && bool_decide (is_Some var)) as ->
    by (unfold file_stop; by rewrite Hs, Ha).
  assert (hit n = file_present pf key n) as ->
    by (unfold file_hit; by rewrite Hp).
  rewrite Hp.
  destruct (file_step_probed n ctx s Hp)
    as (Hval & Herr & Henv & Hpr & Hwr & Hfi & Hop & Her & _).
  destruct (hook n ctx s) as [[a c1] s1 t1].
  cbn [val st evs fst snd negb andb orb] in *. injection Hval as -> ->.
  rewrite truthy_flag.
  destruct (file_present pf key n && bool_decide (is_Some var)) eqn:Hstop.
  - apply andb_prop in Hstop as [Hhit Hv].
    apply bool_decide_eq_true_1 in Hv as [v ->].
    rewrite Hhit in *.
    cbn [val st evs fst snd count List.filter length map]. split_trace.
    rewrite Hwr, Hop, Hfi, Her, Hpr, Henv. simpl. done.
  - destruct (IH {| count := if file_present pf key n
                             then (count ctx + 1)%Z else count ctx;
                    buf := Some (composite n key) |} s1)
      as (Hval' & Hcnt' & Henv' & Hpr' & Hwr' & Hfi' & Hop' & Her').
    destruct (iterate_names hook rest _ s1) as [[a2 c2] s2 t2].
    cbn [val st evs fst snd count] in *. subst a2.
    split_trace.
    rewrite Hcnt', Henv', Hpr', Hwr', Hfi', Hop', Her', Hpr, Hwr, Hfi, Hop, Her.
    rewrite foldl_app, Henv.
    destruct (file_present pf key n) eqn:Hhit.
    + destruct var as [v|]; [done |]. simpl. repeat split; try done. lia.
    + destruct var as [v|]; simpl; repeat split; done.
Qed.

End FileScan.

(** ** The two search functions in terms of their enumeration *)

Section Unfold.
Variable pf : platform.
Variables (key : string) (var : option string) (no_floppy : Z).

Lemma search_fs_unfold (is_uuid : Z) (s : globals) :
  let e := grub_device_iterate pf
             (search_fs_iterate_device pf key var no_floppy is_uuid) 0%Z s in
  search_fs pf key var no_floppy is_uuid s =
  if ((val e).2 =? 0)%Z then
    Res tt {| grub_errno := GRUB_ERR_FILE_NOT_FOUND; env := env (st e) |}
        (evs e ++ [EvError GRUB_ERR_FILE_NOT_FOUND
                     (format "no such device: %s" [key])])
  else Res tt (st e) (evs e ++ []).
Proof.
  intros e. unfold search_fs. rewrite bind_val. fold e.
  destruct ((val e).2 =? 0)%Z; reflexivity.
Qed.

Lemma search_file_unfold (s : globals) :
  let e := grub_device_iterate pf
             (search_file_iterate_device pf key var no_floppy)
             {| count := 0; buf := None |} s in
  search_file pf key var no_floppy s =
  if bool_decide (grub_errno (st e) = GRUB_ERR_NONE) && (count (val e).2 =? 0)%Z
  then
    Res tt {| grub_errno := GRUB_ERR_FILE_NOT_FOUND; env := env (st e) |}
        (evs e ++ [EvFree; EvError GRUB_ERR_FILE_NOT_FOUND
                             (format "no such file: %s" [key])])
  else Res tt (st e) (evs e ++ [EvFree]).
Proof.
  intros e. unfold search_file. rewrite bind_val. fold e.
  run.
  destruct (bool_decide (grub_errno (st e) = GRUB_ERR_NONE)
            && (count (val e).2 =? 0)%Z); reflexivity.
Qed.

End Unfold.

Lemma raised_not_found_app_nil (t : list event) :
  errors_raised t = [] -> ~ raised_not_found (t ++ []).
Proof.
  intros H [msg Hin]. rewrite app_nil_r, H in Hin. by apply elem_of_nil in Hin.
Qed.

Lemma errors_raised_snoc (t : list event) (n : grub_err_t) (msg : string) :
  errors_raised t = [] -> errors_raised (t ++ [EvError n msg]) = [(n, msg)].
Proof. intros H. unfold errors_raised in *. by rewrite omap_app, H. Qed.

Lemma errors_raised_free_snoc (t : list event) (n : grub_err_t)
    (msg : string) :
  errors_raised t = [] ->
  errors_raised (t ++ [EvFree; EvError n msg]) = [(n, msg)].
Proof. intros H. unfold errors_raised in *. by rewrite omap_app, H. Qed.

Lemma errors_raised_free (t : list event) :
  errors_raised t = [] -> errors_raised (t ++ [EvFree]) = [].
Proof. intros H. unfold errors_raised in *. by rewrite omap_app, H. Qed.

Lemma not_raised (t : list event) :
  errors_raised t = [] -> ~ raised_not_found t.
Proof. intros H [msg Hin]. rewrite H in Hin. by apply elem_of_nil in Hin. Qed.

Lemma then_get_errno {A} (m : M A) (s : globals) :
  (m;; get_errno) s = Res (grub_errno (st (m s))) (st (m s)) (evs (m s) ++ []).
Proof. by rewrite bind_val. Qed.

Lemma grub_error_run (n : grub_err_t) (fmt : string) (args : list string)
    (s : globals) :
  grub_error n fmt args s =
  Res n {| grub_errno := n; env := env s |} [EvError n (format fmt args)].
Proof. reflexivity. Qed.

Lemma cmd_returns_errno (pf : platform) (state : options -> grub_arg_list)
    (argc : Z) (args : list string) (s : globals) :
  val (grub_cmd_search pf state argc args s) =
  grub_errno (st (grub_cmd_search pf state argc args s)).
Proof.
  unfold grub_cmd_search.
  destruct (argc =? 0)%Z; [by rewrite grub_error_run |].
  destruct (truthy (set (state SEARCH_LABEL))); [by rewrite then_get_errno |].
  destruct (truthy (set (state SEARCH_FS_UUID))); [by rewrite then_get_errno |].
  destruct (truthy (set (state SEARCH_FILE))); [by rewrite then_get_errno |].
  by rewrite grub_error_run.
Qed.

(** ** The final error decision *)

(** C1.  Each search function raises "not found" after the enumeration
    exactly when the match count is zero and no error is pending; an error
    that is pending is not replaced and is what [grub_errno] holds on return,
    which is also the value [grub_cmd_search] returns.  [search_file] makes
    that test itself.  [search_fs] looks at the count alone: entered with no
    error pending, its per-device test never leaves one. *)
Theorem not_found_decision (pf : platform) (key : string)
    (var : option string) (no_floppy : Z) (s0 : globals) :
  (grub_errno s0 = GRUB_ERR_NONE ->
   forall is_uuid,
     let e := grub_device_iterate pf
                (search_fs_iterate_device pf key var no_floppy is_uuid)
                0%Z s0 in
     let r := search_fs pf key var no_floppy is_uuid s0 in
     (raised_not_found (evs r) <->
      (val e).2 = 0%Z /\ grub_errno (st e) = GRUB_ERR_NONE) /\
     (grub_errno (st e) <> GRUB_ERR_NONE ->
      ~ raised_not_found (evs r) /\ grub_errno (st r) = grub_errno (st e)) /\
     (raised_not_found (evs r) ->
      grub_errno (st r) = GRUB_ERR_FILE_NOT_FOUND) /\
     grub_errno (st e) = GRUB_ERR_NONE) /\
  (let e := grub_device_iterate pf
              (search_file_iterate_device pf key var no_floppy)
              {| count := 0; buf := None |} s0 in
   let r := search_file pf key var no_floppy s0 in
   (raised_not_found (evs r) <->
    count (val e).2 = 0%Z /\ grub_errno (st e) = GRUB_ERR_NONE) /\
   (grub_errno (st e) <> GRUB_ERR_NONE ->
    ~ raised_not_found (evs r) /\ grub_errno (st r) = grub_errno (st e)) /\
   (raised_not_found (evs r) ->
    grub_errno (st r) = GRUB_ERR_FILE_NOT_FOUND)) /\
  (forall state argc args,
     let r := grub_cmd_search pf state argc args s0 in
     val r = grub_errno (st r)).
Proof.
  split; [| split].
  - intros Hclean is_uuid e r. subst r. rewrite search_fs_unfold. fold e.
    destruct (fs_scan pf key var no_floppy is_uuid (pf_devices pf) 0%Z s0 Hclean)
      as (_ & Herr & _ & _ & _ & _ & _ & Her).
    fold (grub_device_iterate pf
            (search_fs_iterate_device pf key var no_floppy is_uuid) 0%Z s0)
      in Herr, Her.
    fold e in Herr, Her.
    destruct ((val e).2 =? 0)%Z eqn:Hc; cbn [evs st grub_errno].
    + apply Z.eqb_eq in Hc.
      assert (raised_not_found
                (evs e ++ [EvError GRUB_ERR_FILE_NOT_FOUND
                             (format "no such device: %s" [key])])) as Hr.
      { eexists. rewrite errors_raised_snoc by done. apply list_elem_of_singleton.
        reflexivity. }
      repeat split; try done.
    + apply Z.eqb_neq in Hc.
      pose proof (raised_not_found_app_nil (evs e) Her) as Hn.
      repeat split; try done. intros [? _]. done.
  - intros e r. subst r. rewrite search_file_unfold. fold e.
    destruct (file_scan pf key var no_floppy (pf_devices pf)
                {| count := 0; buf := None |} s0)
      as (_ & _ & _ & _ & _ & _ & _ & Her).
    fold (grub_device_iterate pf
            (search_file_iterate_device pf key var no_floppy)
            {| count := 0; buf := None |} s0) in Her.
    fold e in Her.
    destruct (bool_decide (grub_errno (st e) = GRUB_ERR_NONE)
              && (count (val e).2 =? 0)%Z) eqn:Hc; cbn [evs st grub_errno].
    + apply andb_prop in Hc as [He Hc]. apply bool_decide_eq_true_1 in He.
      apply Z.eqb_eq in Hc.
      assert (raised_not_found
                (evs e ++ [EvFree; EvError GRUB_ERR_FILE_NOT_FOUND
                                     (format "no such file: %s" [key])])) as Hr.
      { eexists. rewrite errors_raised_free_snoc by done.
        apply list_elem_of_singleton. reflexivity. }
      repeat split; try done.
    + pose proof (not_raised _ (errors_raised_free (evs e) Her)) as Hn.
      repeat split; try done.
      intros [Hc' He']. rewrite (bool_decide_eq_true_2 _ He') in Hc.
      apply Z.eqb_eq in Hc'. by rewrite Hc' in Hc.
  - intros state argc args r. apply cmd_returns_errno.
Qed.

(** ** What the search functions add to their enumeration *)

Section Projections.
Variable pf : platform.
Variables (key : string) (var : option string) (no_floppy : Z).

Lemma search_fs_proj (is_uuid : Z) (s : globals) :
  let e := iterate_names (search_fs_iterate_device pf key var no_floppy is_uuid)
             (pf_devices pf) 0%Z s in
  let r := search_fs pf key var no_floppy is_uuid s in
  env (st r) = env (st e) /\
  printed (evs r) = printed (evs e) /\
  env_writes (evs r) = env_writes (evs e) /\
  devices_opened (evs r) = devices_opened (evs e) /\
  files_opened (evs r) = files_opened (evs e).
Proof.
  intros e r. subst r. rewrite search_fs_unfold.
  fold (grub_device_iterate pf
          (search_fs_iterate_device pf key var no_floppy is_uuid) 0%Z s) in e.
  fold e. destruct ((val e).2 =? 0)%Z; cbn [st evs env]; split_trace;
    simpl; by rewrite ?app_nil_r.
Qed.

Lemma search_file_proj (s : globals) :
  let e := iterate_names (search_file_iterate_device pf key var no_floppy)
             (pf_devices pf) {| count := 0; buf := None |} s in
  let r := search_file pf key var no_floppy s in
  env (st r) = env (st e) /\
  printed (evs r) = printed (evs e) /\
  env_writes (evs r) = env_writes (evs e) /\
  devices_opened (evs r) = devices_opened (evs e) /\
  files_opened (evs r) = files_opened (evs e).
Proof.
  intros e r. subst r. rewrite search_file_unfold.
  fold (grub_device_iterate pf
          (search_file_iterate_device pf key var no_floppy)
          {| count := 0; buf := None |} s) in e.
  fold e.
  destruct (bool_decide (grub_errno (st e) = GRUB_ERR_NONE)
            && (count (val e).2 =? 0)%Z); cbn [st evs env]; split_trace;
    simpl; by rewrite ?app_nil_r.
Qed.

End Projections.

(** ** Lists of devices *)

Lemma filter_none (f : string -> bool) (l : list string) :
  Forall (fun n => f n = false) l -> List.filter f l = [].
Proof. induction 1 as [|n l Hn _ IH]; simpl; [done |]. by rewrite Hn. Qed.

Lemma filter_visited_none (f stop : string -> bool) (l : list string) :
  Forall (fun n => f n = false) l -> List.filter f (visited stop l) = [].
Proof.
  induction 1 as [|n l Hn _ IH]; simpl; [done |]. rewrite Hn.
  by destruct (stop n).
Qed.

Lemma filter_first (f : string -> bool) (pre : list string) (d : string) :
  Forall (fun n => f n = false) pre -> f d = true ->
  List.filter f (pre ++ [d]) = [d].
Proof.
  intros Hpre Hd. rewrite List.filter_app, (filter_none f pre Hpre). simpl.
  by rewrite Hd.
Qed.

Section FileFlags.
Variable pf : platform.
Variables (key : string) (var : option string) (no_floppy : Z).

Lemma file_flags_skipped (n : string) :
  skipped no_floppy n = true ->
  file_stop pf key var no_floppy n = false /\
  file_hit pf key no_floppy n = false /\
  file_probed pf key no_floppy n = false.
Proof. unfold file_stop, file_hit, file_probed. by intros ->. Qed.

Lemma file_flags_alloc (n : string) :
  skipped no_floppy n = false -> alloc_fails pf key n = true ->
  file_stop pf key var no_floppy n = true /\
  file_hit pf key no_floppy n = false /\
  file_probed pf key no_floppy n = false.
Proof. unfold file_stop, file_hit, file_probed. by intros -> ->. Qed.

Lemma file_flags_probed (n : string) :
  skipped no_floppy n = false -> alloc_fails pf key n = false ->
  file_stop pf key var no_floppy n =
    file_present pf key n && bool_decide (is_Some var) /\
  file_hit pf key no_floppy n = file_present pf key n /\
  file_probed pf key no_floppy n = true.
Proof. unfold file_stop, file_hit, file_probed. by intros -> ->. Qed.

End FileFlags.

Section FileBinding.
Variable pf : platform.
Variables (key v : string) (no_floppy : Z).

Local Abbreviation probed := (file_probed pf key no_floppy).
Local Abbreviation hit := (file_hit pf key no_floppy).
Local Abbreviation stop := (file_stop pf key (Some v) no_floppy).
Local Abbreviation taking_part := (fun n => negb (skipped no_floppy n)).

(** With a variable to set, the devices visited up to the first one holding
    the file: at most that device is reported, and the paths opened are an
    initial part of the paths of the devices up to it. *)
Lemma file_binding_visit (pre post : list string) (d : string) :
  Forall (fun n => file_match pf key no_floppy n = false) pre ->
  file_match pf key no_floppy d = true ->
  let vis := visited stop (pre ++ d :: post) in
  (List.filter hit vis = [] \/ List.filter hit vis = [d]) /\
  (exists k, List.filter taking_part (pre ++ [d]) = List.filter probed vis ++ k) /\
  (Forall (fun n => alloc_fails pf key n = false)
          (List.filter taking_part (pre ++ [d])) ->
   List.filter hit vis = [d] /\
   List.filter probed vis = List.filter taking_part (pre ++ [d])).
Proof.
  intros Hpre Hd. induction Hpre as [|n pre Hn _ IH];
    cbn [app visited List.filter].
  - unfold file_match in Hd. apply andb_prop in Hd as [Hs Hf].
    apply negb_true_iff in Hs. rewrite Hs. cbn [negb].
    destruct (alloc_fails pf key d) eqn:Ha.
    + destruct (file_flags_alloc pf key (Some v) no_floppy d Hs Ha)
        as (-> & -> & ->).
      cbn [List.filter app].
      split; [by left |]. split; [by exists [d] |].
      intros Hall. apply Forall_cons_1 in Hall as [Hall _]. congruence.
    + destruct (file_flags_probed pf key (Some v) no_floppy d Hs Ha)
        as (-> & -> & ->).
      rewrite Hf. cbn [andb List.filter app].
      split; [by right |]. split; [by exists [] |]. done.
  - unfold file_match in Hn.
    destruct (skipped no_floppy n) eqn:Hs; cbn [negb andb] in *.
    { destruct (file_flags_skipped pf key (Some v) no_floppy n Hs)
        as (-> & -> & ->).
      apply IH. }
    destruct (alloc_fails pf key n) eqn:Ha.
    + destruct (file_flags_alloc pf key (Some v) no_floppy n Hs Ha)
        as (-> & -> & ->).
      cbn [List.filter]. split; [by left |]. split; [by eexists |].
      intros Hall. apply Forall_cons_1 in Hall as [Hall _]. congruence.
    + destruct (file_flags_probed pf key (Some v) no_floppy n Hs Ha)
        as (-> & -> & ->).
      rewrite Hn. cbn [andb].
      destruct IH as (IH1 & [k IH2] & IH3).
      split; [done |]. split.
      * exists k. by rewrite IH2.
      * intros Hall. apply Forall_cons_1 in Hall as [_ Hall].
        destruct (IH3 Hall) as [-> ->]. done.
Qed.

End FileBinding.

Lemma file_hit_match (pf : platform) (key : string) (no_floppy : Z)
    (n : string) :
  file_match pf key no_floppy n = false -> file_hit pf key no_floppy n = false.
Proof.
  unfold file_match, file_hit, file_probed.
  destruct (skipped no_floppy n), (alloc_fails pf key n),
    (file_present pf key n); done.
Qed.

Lemma fs_stop_binding (pf : platform) (key v : string) (no_floppy is_uuid : Z)
    (n : string) :
  fs_stop pf key (Some v) no_floppy is_uuid n =
  fs_match pf key no_floppy is_uuid n.
Proof.
  unfold fs_stop. rewrite bool_decide_eq_true_2 by eauto. apply andb_true_r.
Qed.

(** ** First match in binding mode *)

(** C3.  With a variable [v] to set.  If no device matches, nothing is
    written.  Otherwise let [d] be the first matching device in enumeration
    order: label and UUID mode, entered with no error pending, write
    [v := d] once and open exactly the devices up to [d] that take part in
    the scan; file mode writes nothing or writes [v := d] once (the latter
    whenever no path buffer allocation fails up to [d]), and the paths it
    opens are an initial part of those of the devices up to [d].  Nothing is
    printed. *)
Theorem binding_first_match (pf : platform) (key v : string) (no_floppy : Z)
    (s0 : globals) :
  (grub_errno s0 = GRUB_ERR_NONE ->
   forall is_uuid,
     let r := search_fs pf key (Some v) no_floppy is_uuid s0 in
     let matches := fs_match pf key no_floppy is_uuid in
     (Forall (fun n => matches n = false) (pf_devices pf) ->
      env_writes (evs r) = [] /\ env (st r) = env s0) /\
     (forall pre d post,
        pf_devices pf = pre ++ d :: post ->
        Forall (fun n => matches n = false) pre ->
        matches d = true ->
        env_writes (evs r) = [(v, d)] /\
        env (st r) = <[v := d]> (env s0) /\
        devices_opened (evs r) =
          List.filter (fun n => negb (skipped no_floppy n)) (pre ++ [d]) /\
        printed (evs r) = [])) /\
  (let r := search_file pf key (Some v) no_floppy s0 in
   let matches := file_match pf key no_floppy in
   (Forall (fun n => matches n = false) (pf_devices pf) ->
    env_writes (evs r) = [] /\ env (st r) = env s0) /\
   (forall pre d post,
      pf_devices pf = pre ++ d :: post ->
      Forall (fun n => matches n = false) pre ->
      matches d = true ->
      (env_writes (evs r) = [] /\ env (st r) = env s0 \/
       env_writes (evs r) = [(v, d)] /\ env (st r) = <[v := d]> (env s0)) /\
      (Forall (fun n => alloc_fails pf key n = false)
              (List.filter (fun n => negb (skipped no_floppy n)) (pre ++ [d])) ->
       env_writes (evs r) = [(v, d)]) /\
      files_opened (evs r) `prefix_of`
        map (fun n => composite n key)
            (List.filter (fun n => negb (skipped no_floppy n)) (pre ++ [d])) /\
      printed (evs r) = [])).
Proof.
  split.
  - intros Hclean is_uuid r matches. subst r matches.
    destruct (search_fs_proj pf key (Some v) no_floppy is_uuid s0)
      as (-> & -> & -> & -> & _).
    destruct (fs_scan pf key (Some v) no_floppy is_uuid (pf_devices pf) 0%Z s0
                Hclean) as (_ & _ & -> & -> & -> & -> & _ & _).
    split.
    + intros Hnone. by rewrite filter_visited_none.
    + intros pre d post -> Hpre Hd.
      rewrite visited_first; cycle 1.
      { eapply Forall_impl; [exact Hpre |]. intros n Hn.
        by rewrite fs_stop_binding. }
      { by rewrite fs_stop_binding. }
      rewrite (filter_first _ pre d Hpre Hd). simpl. done.
  - intros r matches. subst r matches.
    destruct (search_file_proj pf key (Some v) no_floppy s0)
      as (-> & -> & -> & _ & ->).
    destruct (file_scan pf key (Some v) no_floppy (pf_devices pf)
                {| count := 0; buf := None |} s0)
      as (_ & _ & -> & -> & -> & -> & _ & _).
    split.
    + intros Hnone. rewrite filter_visited_none; [done |].
      eapply Forall_impl; [exact Hnone |]. intros n. apply file_hit_match.
    + intros pre d post -> Hpre Hd.
      destruct (file_binding_visit pf key v no_floppy pre post d Hpre Hd)
        as (Hhit & [k Hk] & Hall).
      split; [| split; [| split]].
      * destruct Hhit as [-> | ->]; simpl; [by left | by right].
      * intros Ha. destruct (Hall Ha) as [-> _]. done.
      * exists (map (fun n => composite n key) k). by rewrite Hk, map_app.
      * done.
Qed.

Section FileCollect.
Variable pf : platform.
Variables (key : string) (no_floppy : Z).

(** Without a variable to set, as long as the path buffer can be grown the
    file test never stops the enumeration and reports exactly the devices
    holding the file. *)
Lemma file_collect_alloc_ok (l : list string) :
  Forall (fun n => alloc_fails pf key n = false)
         (List.filter (fun n => negb (skipped no_floppy n)) l) ->
  Forall (fun n => file_stop pf key None no_floppy n = false) l /\
  List.filter (file_hit pf key no_floppy) l =
  List.filter (file_match pf key no_floppy) l.
Proof.
  induction l as [|n l IH]; cbn [List.filter]; [done |].
  unfold file_match at 1.
  destruct (skipped no_floppy n) eqn:Hs; cbn [negb andb].
  - intros Hall. destruct (IH Hall) as [IH1 IH2].
    destruct (file_flags_skipped pf key None no_floppy n Hs) as (Hst & -> & _).
    split; [by constructor | done].
  - intros Hall. apply Forall_cons_1 in Hall as [Ha Hall].
    destruct (IH Hall) as [IH1 IH2].
    destruct (file_flags_probed pf key None no_floppy n Hs Ha)
      as (Hst & -> & _).
    split.
    + constructor; [| done]. rewrite Hst. apply andb_false_r.
    + by rewrite IH2.
Qed.

End FileCollect.

(** ** All matches in reporting mode *)

(** C4, as amended.  Without a variable to set, what is printed is, in
    enumeration order, the devices that take part in the scan and match the
    key, each after one space: always so in label and UUID mode (entered
    with no error pending), and in file mode as long as no path buffer
    allocation fails.  When the allocation first fails on a device [d], file
    mode has printed the matching devices before [d] only.  No variable is
    written. *)
Theorem reporting_emits_matches (pf : platform) (key : string)
    (no_floppy : Z) (s0 : globals) :
  (grub_errno s0 = GRUB_ERR_NONE ->
   forall is_uuid,
     let r := search_fs pf key None no_floppy is_uuid s0 in
     printed (evs r) =
       map (String.append " ")
           (List.filter (fs_match pf key no_floppy is_uuid) (pf_devices pf)) /\
     env_writes (evs r) = [] /\ env (st r) = env s0) /\
  (let r := search_file pf key None no_floppy s0 in
   let taking_part := fun n => negb (skipped no_floppy n) in
   (Forall (fun n => alloc_fails pf key n = false)
           (List.filter taking_part (pf_devices pf)) ->
    printed (evs r) =
      map (String.append " ")
          (List.filter (file_match pf key no_floppy) (pf_devices pf))) /\
   (forall pre d post,
      pf_devices pf = pre ++ d :: post ->
      Forall (fun n => alloc_fails pf key n = false)
             (List.filter taking_part pre) ->
      taking_part d = true -> alloc_fails pf key d = true ->
      printed (evs r) =
        map (String.append " ")
            (List.filter (file_match pf key no_floppy) pre)) /\
   env_writes (evs r) = [] /\ env (st r) = env s0).
Proof.
  split.
  - intros Hclean is_uuid r. subst r.
    destruct (search_fs_proj pf key None no_floppy is_uuid s0)
      as (-> & -> & -> & _ & _).
    destruct (fs_scan pf key None no_floppy is_uuid (pf_devices pf) 0%Z s0
                Hclean) as (_ & _ & -> & -> & -> & _ & _ & _).
    rewrite visited_none; [done |].
    apply Forall_forall. intros n _. unfold fs_stop. apply andb_false_r.
  - intros r taking_part. subst r taking_part.
    destruct (search_file_proj pf key None no_floppy s0)
      as (-> & -> & -> & _ & _).
    destruct (file_scan pf key None no_floppy (pf_devices pf)
                {| count := 0; buf := None |} s0)
      as (_ & _ & -> & -> & -> & _ & _ & _).
    split; [| split; [| done]].
    + intros Hall.
      destruct (file_collect_alloc_ok pf key no_floppy _ Hall) as [Hst Hf].
      rewrite visited_none by done. simpl. by rewrite Hf.
    + intros pre d post -> Hall Hs Ha. apply negb_true_iff in Hs.
      destruct (file_collect_alloc_ok pf key no_floppy _ Hall) as [Hst Hf].
      destruct (file_flags_alloc pf key None no_floppy d Hs Ha)
        as (Hstd & Hhd & _).
      rewrite visited_first by done. simpl.
      rewrite List.filter_app, Hf. simpl. rewrite Hhd.
      by rewrite app_nil_r.
Qed.

(** C4, as stated, fails in file mode when a path buffer allocation fails:
    on [pf_oom] the scan stops at [hd10], so [hd1] is never reported although
    it holds the file. *)
Lemma reporting_stops_on_alloc_failure :
  ~ emits_all_matches pf_oom "/grub.cfg" 0 s_clean.
Proof.
  intros [_ H]. vm_compute in H. discriminate H.
Qed.

(** ** Per-device failures *)

(** The ways a device can fail to yield a label (or UUID). *)
Lemma fs_quid_none_iff (pf : platform) (is_uuid : Z) (name : string) :
  fs_quid pf is_uuid name = None <->
  (exists e, pf_device_open pf name = Err e) \/
  (exists e, pf_fs_probe pf name = Err e) \/
  (exists fs, pf_fs_probe pf name = Ok fs /\
     (QUID is_uuid fs = None \/
      exists f, QUID is_uuid fs = Some f /\
        ((f {| dev_name := name |}).1 <> GRUB_ERR_NONE \/
         (f {| dev_name := name |}).2 = None))).
Proof.
  unfold fs_quid.
  destruct (pf_device_open pf name) as [[]|e1]; [| split; [by eauto | done]].
  destruct (pf_fs_probe pf name) as [fs|e2]; [| split; [by eauto | done]].
  destruct (QUID is_uuid fs) as [f|] eqn:Hq; [| split; [by eauto 10 | done]].
  destruct (f {| dev_name := name |}) as [e3 quid] eqn:Hf.
  split.
  - intros H. right. right. exists fs. split; [done |]. right. exists f.
    split; [done |]. rewrite Hf. simpl.
    destruct e3; try (by left). destruct quid; [done | by right].
  - intros [[e He] | [[e He] | (fs' & Hfs & Hcase)]]; [done | done |].
    injection Hfs as <-. rewrite Hq in Hcase.
    destruct Hcase as [Hn | (f' & Hf' & Hbad)]; [done |].
    injection Hf' as <-. rewrite Hf in Hbad. simpl in Hbad.
    destruct Hbad as [Hbad | ->]; destruct e3; done.
Qed.

Lemma fs_step_unusable (pf : platform) (key : string) (var : option string)
    (no_floppy is_uuid : Z) (name : string) (c : Z) (s : globals) :
  skipped no_floppy name = false ->
  fs_quid pf is_uuid name = None ->
  let r := search_fs_iterate_device pf key var no_floppy is_uuid name c s in
  val r = (0%Z, c) /\ st r = {| grub_errno := GRUB_ERR_NONE; env := env s |} /\
  printed (evs r) = [] /\ env_writes (evs r) = [] /\ errors_raised (evs r) = [].
Proof.
  intros Hskip Hq r. subst r. unfold fs_quid in Hq.
  unfold search_fs_iterate_device. unfold skipped in Hskip. rewrite Hskip.
  destruct s as [e0 env0]. run.
  destruct (pf_device_open pf name) as [[]|e1]; run.
  2:{ by destruct (bool_decide (e1 = GRUB_ERR_NONE)). }
  destruct (pf_fs_probe pf name) as [fs|e2]; run.
  2:{ by destruct (bool_decide (e2 = GRUB_ERR_NONE)). }
  destruct (QUID is_uuid fs) as [f|]; run; [| done].
  destruct (f {| dev_name := name |}) as [e3 quid]; run.
  destruct e3; simpl; try (by destruct quid).
  destruct quid as [q|]; [done |]. simpl.
  by destruct (bool_decide (e0 = GRUB_ERR_NONE)).
Qed.

(** C5.  A device that takes part in the scan but does not open, carries no
    recognised filesystem, lacks the accessor or does not yield a value
    (label and UUID mode), or on which the file does not open (file mode),
    makes the per-device test return 0 with nothing counted, printed or
    written and with [grub_errno] reset; the enumerator then goes on with
    the devices that follow. *)
Theorem device_failures_cleared (pf : platform) (key : string)
    (var : option string) (no_floppy : Z) (name : string)
    (rest : list string) (s : globals) :
  skipped no_floppy name = false ->
  (forall is_uuid c,
     fs_quid pf is_uuid name = None ->
     let hook := search_fs_iterate_device pf key var no_floppy is_uuid in
     let r := hook name c s in
     val r = (0%Z, c) /\
     grub_errno (st r) = GRUB_ERR_NONE /\ env (st r) = env s /\
     printed (evs r) = [] /\ env_writes (evs r) = [] /\
     errors_raised (evs r) = [] /\
     iterate_names hook (name :: rest) c s =
       (let r' := iterate_names hook rest c (st r) in
        Res (val r') (st r') (evs r ++ evs r'))) /\
  (forall ctx,
     alloc_fails pf key name = false ->
     file_present pf key name = false ->
     let hook := search_file_iterate_device pf key var no_floppy in
     let r := hook name ctx s in
     val r = (0%Z, {| count := count ctx; buf := Some (composite name key) |}) /\
     grub_errno (st r) = GRUB_ERR_NONE /\ env (st r) = env s /\
     printed (evs r) = [] /\ env_writes (evs r) = [] /\
     errors_raised (evs r) = [] /\
     iterate_names hook (name :: rest) ctx s =
       (let r' := iterate_names hook rest (val r).2 (st r) in
        Res (val r') (st r') (evs r ++ evs r'))).
Proof.
  intros Hs. split.
  - intros is_uuid c Hq hook r.
    destruct (fs_step_unusable pf key var no_floppy is_uuid name c s Hs Hq)
      as (Hval & Hst & Hpr & Hwr & Her).
    fold hook in Hval, Hst, Hpr, Hwr, Her. fold r in Hval, Hst, Hpr, Hwr, Her.
    repeat split; try done; try (by rewrite Hst).
    rewrite iterate_names_cons. fold hook. fold r. cbv zeta. by rewrite Hval.
  - intros ctx Ha Hf hook r.
    assert (file_probed pf key no_floppy name = true) as Hp
      by (unfold file_probed; by rewrite Hs, Ha).
    destruct (file_step_probed pf key var no_floppy name ctx s Hp)
      as (Hval & Herr & Henv & Hpr & Hwr & _ & _ & Her & _).
    fold hook in Hval, Herr, Henv, Hpr, Hwr, Her.
    fold r in Hval, Herr, Henv, Hpr, Hwr, Her.
    rewrite Hf in *. simpl in Hval, Hpr.
    repeat split; try done; try (by destruct var).
    rewrite iterate_names_cons. fold hook. fold r. cbv zeta. by rewrite Hval.
Qed.

(** Whatever the state on entry, the label test opens the device it is
    given, unless it skips it, and raises no error of its own. *)
Lemma fs_step_any (pf : platform) (key : string) (var : option string)
    (no_floppy is_uuid : Z) (name : string) (c : Z) (s : globals) :
  let r := search_fs_iterate_device pf key var no_floppy is_uuid name c s in
  devices_opened (evs r) = (if skipped no_floppy name then [] else [name]) /\
  errors_raised (evs r) = [].
Proof.
  intros r. subst r. destruct (skipped no_floppy name) eqn:Hskip.
  { by rewrite fs_step_skipped. }
  unfold search_fs_iterate_device.
  unfold skipped in Hskip. rewrite Hskip.
  destruct s as [e0 env0]. run.
  destruct (pf_device_open pf name) as [[]|e1]; run.
  2:{ by destruct (bool_decide (e1 = GRUB_ERR_NONE)). }
  destruct (pf_fs_probe pf name) as [fs|e2]; run.
  2:{ by destruct (bool_decide (e2 = GRUB_ERR_NONE)). }
  destruct (QUID is_uuid fs) as [f|]; run; [| done].
  destruct (f {| dev_name := name |}) as [e3 quid]; run.
  destruct (bool_decide (e3 = GRUB_ERR_NONE)); simpl.
  - destruct (bool_decide (e0 = GRUB_ERR_NONE)); [| done].
    destruct quid as [q|]; [| done].
    destruct (grub_strcmp q key =? 0)%Z; [| done]. by destruct var.
  - destruct (bool_decide (e3 = GRUB_ERR_NONE)); [| done].
    destruct quid as [q|]; [| done].
    destruct (grub_strcmp q key =? 0)%Z; [| done]. by destruct var.
Qed.

(** An enumeration raises no error if its per-device test raises none. *)
Lemma iterate_names_no_error {L : Type} (hook : string -> L -> M (Z * L))
    (names : list string) :
  (forall n ctx s, errors_raised (evs (hook n ctx s)) = []) ->
  forall ctx s, errors_raised (evs (iterate_names hook names ctx s)) = [].
Proof.
  intros Hhook. induction names as [|n rest IH]; intros ctx s; [done |].
  rewrite iterate_names_cons. cbv zeta.
  destruct (truthy (val (hook n ctx s)).1); cbn [evs]; split_trace.
  - apply Hhook.
  - by rewrite Hhook, IH.
Qed.

Lemma search_fs_errors (pf : platform) (key : string) (var : option string)
    (no_floppy is_uuid : Z) (s : globals) (n : grub_err_t) (msg : string) :
  (n, msg) ∈ errors_raised (evs (search_fs pf key var no_floppy is_uuid s)) ->
  n = GRUB_ERR_FILE_NOT_FOUND.
Proof.
  rewrite search_fs_unfold. cbv zeta.
  pose proof (iterate_names_no_error
                (search_fs_iterate_device pf key var no_floppy is_uuid)
                (pf_devices pf)
                (fun n c s => proj2 (fs_step_any pf key var no_floppy is_uuid
                                       n c s)) 0%Z s) as He.
  fold (grub_device_iterate pf
          (search_fs_iterate_device pf key var no_floppy is_uuid) 0%Z s) in He.
  destruct (_ =? 0)%Z; cbn [evs]; split_trace; rewrite He; simpl.
  - intros Hin. apply list_elem_of_singleton in Hin. congruence.
  - intros Hin. by apply elem_of_nil in Hin.
Qed.

Lemma search_file_errors (pf : platform) (key : string) (var : option string)
    (no_floppy : Z) (s : globals) (n : grub_err_t) (msg : string) :
  (n, msg) ∈ errors_raised (evs (search_file pf key var no_floppy s)) ->
  n = GRUB_ERR_FILE_NOT_FOUND.
Proof.
  rewrite search_file_unfold. cbv zeta.
  destruct (file_scan pf key var no_floppy (pf_devices pf)
              {| count := 0; buf := None |} s)
    as (_ & _ & _ & _ & _ & _ & _ & He).
  fold (grub_device_iterate pf
          (search_file_iterate_device pf key var no_floppy)
          {| count := 0; buf := None |} s) in He.
  destruct (_ && _); cbn [evs]; split_trace; rewrite He; simpl.
  - intros Hin. apply list_elem_of_singleton in Hin. congruence.
  - intros Hin. by apply elem_of_nil in Hin.
Qed.

(** ** Invocation and mode dispatch *)

Lemma cmd_dispatch (pf : platform) (state : options -> grub_arg_list)
    (argc : Z) (args : list string) (s : globals) :
  argc <> 0%Z ->
  grub_cmd_search pf state argc args s =
  let key := default EmptyString (head args) in
  let var := binding_target state in
  let no_floppy := set (state SEARCH_NO_FLOPPY) in
  if truthy (set (state SEARCH_LABEL)) then
    (search_fs pf key var no_floppy 0;; get_errno) s
  else if truthy (set (state SEARCH_FS_UUID)) then
    (search_fs pf key var no_floppy 1;; get_errno) s
  else if truthy (set (state SEARCH_FILE)) then
    (search_file pf key var no_floppy;; get_errno) s
  else grub_error GRUB_ERR_INVALID_COMMAND "unspecified search type" [] s.
Proof.
  intros Hargc. apply Z.eqb_neq in Hargc.
  unfold grub_cmd_search, binding_target. rewrite Hargc. cbv zeta.
  destruct (truthy (set (state SEARCH_LABEL))); [done |].
  destruct (truthy (set (state SEARCH_FS_UUID))); [done |].
  by destruct (truthy (set (state SEARCH_FILE))).
Qed.

(** C6, as amended.  Without a positional argument, or without any of the
    three mode options, the command raises [GRUB_ERR_INVALID_COMMAND] and
    returns it, and that call to [grub_error] is all it does: no device or
    file is opened, nothing is printed or written.  With a positional
    argument and a mode option it raises no such error, whatever the key. *)
Theorem invocation_errors (pf : platform) (state : options -> grub_arg_list)
    (argc : Z) (args : list string) (s : globals) :
  (argc = 0%Z \/ no_mode state ->
   grub_cmd_search pf state argc args s =
   Res GRUB_ERR_INVALID_COMMAND
       {| grub_errno := GRUB_ERR_INVALID_COMMAND; env := env s |}
       [EvError GRUB_ERR_INVALID_COMMAND
          (if (argc =? 0)%Z then "no argument specified"
           else "unspecified search type")]) /\
  (argc <> 0%Z -> ~ no_mode state ->
   forall msg,
     (GRUB_ERR_INVALID_COMMAND, msg)
       ∉ errors_raised (evs (grub_cmd_search pf state argc args s))).
Proof.
  split.
  - intros H. unfold grub_cmd_search.
    destruct (argc =? 0)%Z eqn:Hargc; [reflexivity |].
    destruct H as [-> | (Hl & Hu & Hf)]; [done |].
    rewrite Hl, Hu, Hf. reflexivity.
  - intros Hargc Hmode msg Hin.
    rewrite (cmd_dispatch pf state argc args s Hargc) in Hin. cbv zeta in Hin.
    unfold no_mode in Hmode.
    destruct (truthy (set (state SEARCH_LABEL)));
      [| destruct (truthy (set (state SEARCH_FS_UUID)));
         [| destruct (truthy (set (state SEARCH_FILE)))]].
    + rewrite then_get_errno, app_nil_r in Hin.
      by apply search_fs_errors in Hin.
    + rewrite then_get_errno, app_nil_r in Hin.
      by apply search_fs_errors in Hin.
    + rewrite then_get_errno, app_nil_r in Hin.
      by apply search_file_errors in Hin.
    + by apply Hmode.
Qed.

(** C6, as stated, fails for an empty key: [search -f] with the empty
    string as its key is not refused on [pf_demo], it runs the file search. *)
Lemma empty_key_is_searched :
  ~ rejects_bad_invocation pf_demo (arg_state 1 0 0 0 None 0) 1 [EmptyString]
      s_clean.
Proof.
  intros H. destruct H as [Hv _]; [right; left; reflexivity |].
  vm_compute in Hv. discriminate Hv.
Qed.

(** C9.  With a positional argument, [-l] selects the label search whatever
    else is given; without [-l], [-u] selects the UUID search whether or not
    [-f] is given; [-f] selects the file search only when neither is. *)
Theorem mode_precedence (pf : platform) (state : options -> grub_arg_list)
    (argc : Z) (args : list string) (s : globals) :
  argc <> 0%Z ->
  let key := default EmptyString (head args) in
  let var := binding_target state in
  let no_floppy := set (state SEARCH_NO_FLOPPY) in
  let l := truthy (set (state SEARCH_LABEL)) in
  let u := truthy (set (state SEARCH_FS_UUID)) in
  let f := truthy (set (state SEARCH_FILE)) in
  (l = true ->
   grub_cmd_search pf state argc args s =
   (search_fs pf key var no_floppy 0;; get_errno) s) /\
  (l = false -> u = true ->
   grub_cmd_search pf state argc args s =
   (search_fs pf key var no_floppy 1;; get_errno) s) /\
  (l = false -> u = false -> f = true ->
   grub_cmd_search pf state argc args s =
   (search_file pf key var no_floppy;; get_errno) s).
Proof.
  intros Hargc key var no_floppy l u f. subst key var no_floppy l u f.
  rewrite (cmd_dispatch pf state argc args s Hargc). cbv zeta. repeat split.
  - by intros ->.
  - by intros -> ->.
  - by intros -> -> ->.
Qed.

(** C2.  The help text of [-f] in the option table calls the file search the
    default, yet an invocation with a key and none of [-f], [-l], [-u] is
    refused with "unspecified search type" and opens nothing, although
    [hd1] holds the file asked for. *)
Theorem no_mode_is_refused :
  doc <$> head options_table = Some "search devices by a file (default)" /\
  file_match pf_demo "/grub.cfg" 0 "hd1" = true /\
  grub_cmd_search pf_demo (arg_state 0 0 0 0 None 0) 1 ["/grub.cfg"] s_clean =
  Res GRUB_ERR_INVALID_COMMAND
      {| grub_errno := GRUB_ERR_INVALID_COMMAND; env := ∅ |}
      [EvError GRUB_ERR_INVALID_COMMAND "unspecified search type"].
Proof. repeat split. Qed.

(** ** Floppy exclusion *)

Lemma digit_range (c : ascii) :
  Ascii.leb "0" c && Ascii.leb c "9" = true <->
  (48 <= N_of_ascii c <= 57)%N.
Proof.
  unfold Ascii.leb, Ascii.compare.
  change (N_of_ascii "0") with 48%N. change (N_of_ascii "9") with 57%N.
  destruct (N.compare_spec 48 (N_of_ascii c)),
    (N.compare_spec (N_of_ascii c) 57); simpl; split; intros; try done; lia.
Qed.

Lemma floppy_name_iff (name : string) :
  floppy_name name = true <->
  exists c rest, name = String "f" (String "d" (String c rest)) /\
    (48 <= N_of_ascii c <= 57)%N.
Proof.
  unfold floppy_name, char_at.
  destruct name as [|a [|b [|c rest]]]; simpl.
  - split; [done | by intros (? & ? & ? & _)].
  - split; [| by intros (? & ? & ? & _)].
    rewrite andb_false_r. done.
  - split; [| by intros (? & ? & ? & _)].
    intros H. apply andb_prop in H as [_ H]. done.
  - rewrite !andb_true_iff, !Ascii.eqb_eq, <- andb_true_iff, digit_range.
    split.
    + intros [[-> ->] H]. by eauto.
    + intros (c' & rest' & Heq & H). injection Heq as -> -> -> ->. done.
Qed.

Lemma file_step_first_event (pf : platform) (key : string)
    (var : option string) (no_floppy : Z) (name : string) (ctx : file_ctx)
    (s : globals) :
  skipped no_floppy name = false ->
  exists t,
    evs (search_file_iterate_device pf key var no_floppy name ctx s) =
    EvRealloc (path_len name key) :: t.
Proof.
  intros Hs. destruct (alloc_fails pf key name) eqn:Ha.
  - unfold alloc_fails in Ha.
    destruct (pf_realloc pf (path_len name key)) as [|e] eqn:Hr; [done |].
    rewrite (file_step_alloc_fails pf key var no_floppy name ctx s e Hs Hr).
    by eexists.
  - assert (file_probed pf key no_floppy name = true) as Hp
      by (unfold file_probed; by rewrite Hs, Ha).
    destruct (file_step_probed pf key var no_floppy name ctx s Hp)
      as (_ & _ & _ & _ & _ & _ & _ & _ & t & ->).
    by eexists.
Qed.

(** C7.  The floppy test holds exactly of the names made of [f], [d], a
    decimal digit and anything after, which have at least three characters.
    When exclusion is requested both per-device tests return 0 on such a name
    without any call and without touching the state.  When it is not
    requested, every name, floppy or not, has its device opened (label and
    UUID mode) or its path buffer requested and, if granted, its file opened
    (file mode). *)
Theorem floppy_filter (pf : platform) (key : string) (var : option string) :
  (forall name,
     floppy_name name = true <->
     exists c rest, name = String "f" (String "d" (String c rest)) /\
       (48 <= N_of_ascii c <= 57)%N) /\
  (forall name, floppy_name name = true -> 3 <= String.length name) /\
  (forall no_floppy name is_uuid c ctx s,
     no_floppy <> 0%Z -> floppy_name name = true ->
     search_fs_iterate_device pf key var no_floppy is_uuid name c s =
       Res (0%Z, c) s [] /\
     search_file_iterate_device pf key var no_floppy name ctx s =
       Res (0%Z, ctx) s []) /\
  (forall name is_uuid c ctx s,
     devices_opened
       (evs (search_fs_iterate_device pf key var 0 is_uuid name c s)) = [name] /\
     (exists t,
        evs (search_file_iterate_device pf key var 0 name ctx s) =
        EvRealloc (path_len name key) :: t) /\
     (alloc_fails pf key name = false ->
      files_opened (evs (search_file_iterate_device pf key var 0 name ctx s)) =
      [composite name key])).
Proof.
  split; [apply floppy_name_iff |]. split; [| split].
  - intros name H. apply floppy_name_iff in H as (c & rest & -> & _).
    simpl. lia.
  - intros no_floppy name is_uuid c ctx s Hnf Hfl.
    assert (skipped no_floppy name = true) as Hs.
    { unfold skipped, truthy. rewrite Hfl.
      apply Z.eqb_neq in Hnf. by rewrite Hnf. }
    split; [by apply fs_step_skipped | by apply file_step_skipped].
  - intros name is_uuid c ctx s.
    assert (skipped 0 name = false) as Hs by reflexivity.
    split; [by destruct (fs_step_any pf key var 0 is_uuid name c s) as [-> _] |].
    split; [by apply file_step_first_event |].
    intros Ha.
    assert (file_probed pf key 0 name = true) as Hp
      by (unfold file_probed; by rewrite Hs, Ha).
    by destruct (file_step_probed pf key var 0 name ctx s Hp)
      as (_ & _ & _ & _ & _ & -> & _).
Qed.

(** ** The path opened in file mode *)

Lemma string_length_append (a b : string) :
  String.length (a +:+ b) = String.length a + String.length b.
Proof.
  induction a as [|c a IH]; [done |].
  change (String c a +:+ b) with (String c (a +:+ b)). simpl. by rewrite IH.
Qed.

(** C8.  The path built for device [name] and key [key] is the string
    [(name)key]; it fits the buffer requested for it with its terminator.
    On a device that takes part in the scan and for which the buffer is
    granted, that path is the one file opened and what [buf] then holds; on
    any other device no file is opened. *)
Theorem composite_path (pf : platform) (key : string) (var : option string)
    (no_floppy : Z) (name : string) (ctx : file_ctx) (s : globals) :
  let path := "(" +:+ name +:+ ")" +:+ key in
  let r := search_file_iterate_device pf key var no_floppy name ctx s in
  grub_sprintf "(%s)%s" [name; key] = path /\
  (N.of_nat (String.length path) + 1 = path_len name key)%N /\
  (file_probed pf key no_floppy name = true ->
   files_opened (evs r) = [path] /\ buf (val r).2 = Some path) /\
  (file_probed pf key no_floppy name = false ->
   files_opened (evs r) = [] /\ buf (val r).2 = buf ctx).
Proof.
  intros path r. subst path r. split; [apply format_path |]. split; [| split].
  - change (String.length ("(" +:+ name +:+ ")" +:+ key))
      with (S (String.length (name +:+ String ")" key))).
    rewrite string_length_append. unfold path_len, grub_strlen. simpl. lia.
  - intros Hp.
    destruct (file_step_probed pf key var no_floppy name ctx s Hp)
      as (Hval & _ & _ & _ & _ & Hfi & _).
    by rewrite Hval, Hfi.
  - intros Hp. unfold file_probed in Hp.
    destruct (skipped no_floppy name) eqn:Hs.
    + by rewrite file_step_skipped.
    + simpl in Hp. apply negb_false_iff in Hp. unfold alloc_fails in Hp.
      destruct (pf_realloc pf (path_len name key)) as [|e] eqn:Hr; [done |].
      by rewrite (file_step_alloc_fails pf key var no_floppy name ctx s e Hs Hr).
Qed.

(** ** Allocation failure in file mode *)

(** C10.  Let [d] be a device that takes part in the file scan, reached
    without any earlier device stopping the enumeration, and for which
    growing the path buffer fails leaving the error [e].  The per-device test
    on [d] returns 1 and leaves [count] and [buf] as they were; the whole
    search consists of the enumeration of the devices before [d], the failed
    request and the final [grub_free]: nothing is opened, printed or written
    for [d] or any device after it, "not found" is not raised, and [e] is
    what [grub_errno] holds and what [grub_cmd_search] returns. *)
Theorem alloc_failure_aborts (pf : platform) (key : string)
    (var : option string) (no_floppy : Z) (pre post : list string)
    (d : string) (e : grub_err_t) (s0 : globals) :
  pf_devices pf = pre ++ d :: post ->
  Forall (fun n => file_stop pf key var no_floppy n = false) pre ->
  skipped no_floppy d = false ->
  pf_realloc pf (path_len d key) = Err e ->
  e <> GRUB_ERR_NONE ->
  let hook := search_file_iterate_device pf key var no_floppy in
  let before := iterate_names hook pre {| count := 0; buf := None |} s0 in
  let r := search_file pf key var no_floppy s0 in
  (forall ctx s, val (hook d ctx s) = (1%Z, ctx)) /\
  evs r = evs before ++ [EvRealloc (path_len d key); EvFree] /\
  files_opened (evs r) =
    map (fun n => composite n key)
        (List.filter (fun n => negb (skipped no_floppy n)) pre) /\
  ~ raised_not_found (evs r) /\
  grub_errno (st r) = e /\
  (forall state argc args,
     argc <> 0%Z ->
     truthy (set (state SEARCH_LABEL)) = false ->
     truthy (set (state SEARCH_FS_UUID)) = false ->
     truthy (set (state SEARCH_FILE)) = true ->
     binding_target state = var ->
     set (state SEARCH_NO_FLOPPY) = no_floppy ->
     head args = Some key ->
     val (grub_cmd_search pf state argc args s0) = e).
Proof.
  intros Hdev Hpre Hs Hr He hook before r. subst hook.
  assert (forall ctx s,
            search_file_iterate_device pf key var no_floppy d ctx s =
            Res (1%Z, ctx) {| grub_errno := e; env := env s |}
                [EvRealloc (path_len d key)]) as Hd.
  { intros ctx s.
    rewrite (file_step_alloc_fails pf key var no_floppy d ctx s e Hs Hr).
    by rewrite bool_decide_eq_false_2. }
  destruct (file_scan pf key var no_floppy pre {| count := 0; buf := None |} s0)
    as (Hb1 & _ & _ & _ & _ & Hbf & _ & Hbe).
  fold before in Hb1, Hbf, Hbe.
  rewrite (existsb_none _ pre Hpre) in Hb1.
  rewrite (visited_none _ pre Hpre) in Hbf.
  assert (grub_device_iterate pf
            (search_file_iterate_device pf key var no_floppy)
            {| count := 0; buf := None |} s0 =
          Res (1%Z, (val before).2)
              {| grub_errno := e; env := env (st before) |}
              (evs before ++ [EvRealloc (path_len d key)])) as Hrun.
  { unfold grub_device_iterate. rewrite Hdev.
    rewrite iterate_names_app by done. fold before. cbv zeta.
    by rewrite iterate_names_cons, Hd. }
  assert (r = Res tt {| grub_errno := e; env := env (st before) |}
                (evs before ++ [EvRealloc (path_len d key); EvFree])) as Hres.
  { subst r. rewrite search_file_unfold. cbv zeta. rewrite Hrun.
    cbn [val st evs grub_errno snd].
    rewrite bool_decide_eq_false_2 by done. cbn [andb].
    by rewrite <- app_assoc. }
  assert (files_opened (evs r) =
          map (fun n => composite n key)
              (List.filter (fun n => negb (skipped no_floppy n)) pre)) as Hfiles.
  { rewrite Hres. cbn [evs]. split_trace. rewrite Hbf. simpl.
    rewrite ?app_nil_r. f_equal. clear -Hpre.
    induction Hpre as [|n pre Hn _ IH]; [done |]. cbn [List.filter].
    rewrite IH. unfold file_probed, file_stop in *.
    destruct (skipped no_floppy n); [done |]. simpl in *.
    apply orb_false_elim in Hn as [-> _]. done. }
  split; [by intros ctx s; rewrite Hd |].
  split; [by rewrite Hres |]. split; [done |].
  split.
  { apply not_raised. rewrite Hres. cbn [evs]. split_trace. by rewrite Hbe. }
  split; [by rewrite Hres |].
  intros state argc args Hargc Hl Hu Hf Hvar Hnf Hkey.
  rewrite cmd_returns_errno, (cmd_dispatch pf state argc args s0 Hargc).
  cbv zeta. rewrite Hl, Hu, Hf, then_get_errno. cbn [st].
  rewrite Hvar, Hnf, Hkey. cbn [default from_option id]. fold r.
  by rewrite Hres.
Qed.

(** * The scenarios of the specification, run *)

(** Label search for MYUSB without [-s] and without [-n]: the floppy is
    probed like the disks and, carrying the label, is reported too. *)
Example scenario_label_report :
  printed (evs (grub_cmd_search pf_demo (arg_state 0 1 0 0 None 0) 1 ["MYUSB"]
                  s_clean)) = [" fd0"; " hd1"].
Proof. vm_compute. reflexivity. Qed.

(** The same with [-n] and [-s]: [root] is set to [hd1], nothing is printed
    and the floppy is never opened. *)
Example scenario_label_bind :
  let r := grub_cmd_search pf_demo (arg_state 0 1 0 1 None 1) 1 ["MYUSB"]
             s_clean in
  val r = GRUB_ERR_NONE /\
  env_writes (evs r) = [("root", "hd1")] /\
  printed (evs r) = [] /\
  devices_opened (evs r) = ["hd0"; "hd2"; "hd1"].
Proof. vm_compute. repeat split. Qed.

(** File search with [-n]: [fd0] is skipped, [hd1] is reported. *)
Example scenario_file_no_floppy :
  let r := grub_cmd_search pf_demo (arg_state 1 0 0 0 None 1) 1 ["/grub.cfg"]
             s_clean in
  val r = GRUB_ERR_NONE /\
  printed (evs r) = [" hd1"] /\
  files_opened (evs r) =
    ["(hd0)/grub.cfg"; "(hd2)/grub.cfg"; "(hd1)/grub.cfg"].
Proof. vm_compute. repeat split. Qed.

(** UUID search on filesystems without a UUID accessor: not found. *)
Example scenario_uuid_not_found :
  let r := grub_cmd_search pf_demo (arg_state 0 0 1 0 None 0) 1 ["ABCD-1234"]
             s_clean in
  val r = GRUB_ERR_FILE_NOT_FOUND /\
  errors_raised (evs r) =
    [(GRUB_ERR_FILE_NOT_FOUND, "no such device: ABCD-1234")].
Proof. vm_compute. repeat split. Qed.

(** No key at all. *)
Example scenario_no_key :
  evs (grub_cmd_search pf_demo (arg_state 1 0 0 0 None 0) 0 [] s_clean) =
  [EvError GRUB_ERR_INVALID_COMMAND "no argument specified"].
Proof. vm_compute. reflexivity. Qed.

(** An empty key in file mode: every device has the path [(name)] tried. *)
Example empty_key_run :
  let r := grub_cmd_search pf_demo (arg_state 1 0 0 0 None 0) 1 [EmptyString]
             s_clean in
  val r = GRUB_ERR_FILE_NOT_FOUND /\
  files_opened (evs r) = ["(fd0)"; "(hd0)"; "(hd2)"; "(hd1)"].
Proof. vm_compute. repeat split. Qed.

(** The heap of [pf_oom] gives out on [hd10]: [hd0] has been reported,
    [hd1] is never tried, and the allocator's error is returned. *)
Example alloc_failure_run :
  let r := grub_cmd_search pf_oom (arg_state 1 0 0 0 None 0) 1 ["/grub.cfg"]
             s_clean in
  val r = GRUB_ERR_OUT_OF_MEMORY /\
  evs r = [EvRealloc 15; EvFileOpen "(hd0)/grub.cfg"; EvPrintf " hd0";
           EvFileClose "(hd0)/grub.cfg"; EvRealloc 16; EvFree].
Proof. vm_compute. repeat split. Qed.

(** * The theorems at work on the sample platforms *)

Lemma not_found_decision_witness :
  grub_errno s_clean = GRUB_ERR_NONE /\
  (let e := grub_device_iterate pf_demo
              (search_fs_iterate_device pf_demo "ABCD-1234" None 0 1)
              0%Z s_clean in
   let r := search_fs pf_demo "ABCD-1234" None 0 1 s_clean in
   raised_not_found (evs r) <->
   (val e).2 = 0%Z /\ grub_errno (st e) = GRUB_ERR_NONE).
Proof.
  split; [reflexivity |].
  exact (proj1 (proj1 (not_found_decision pf_demo "ABCD-1234" None 0 s_clean)
                  eq_refl 1%Z)).
Defined.

Lemma binding_first_match_witness :
  grub_errno s_clean = GRUB_ERR_NONE /\
  (let r := search_fs pf_demo "MYUSB" (Some "root") 1 0 s_clean in
   env_writes (evs r) = [("root", "hd1")] /\
   env (st r) = <["root" := "hd1"]> (env s_clean) /\
   devices_opened (evs r) =
     List.filter (fun n => negb (skipped 1 n)) (["fd0"; "hd0"; "hd2"] ++ ["hd1"]) /\
   printed (evs r) = []).
Proof.
  split; [reflexivity |].
  apply (proj2 (proj1 (binding_first_match pf_demo "MYUSB" "root" 1 s_clean)
                  eq_refl 0%Z) ["fd0"; "hd0"; "hd2"] "hd1" []).
  - reflexivity.
  - repeat constructor.
  - reflexivity.
Defined.

Lemma reporting_emits_matches_witness :
  grub_errno s_clean = GRUB_ERR_NONE /\
  Forall (fun n => alloc_fails pf_demo "/grub.cfg" n = false)
         (List.filter (fun n => negb (skipped 0 n)) (pf_devices pf_demo)) /\
  printed (evs (search_file pf_demo "/grub.cfg" None 0 s_clean)) =
    map (String.append " ")
        (List.filter (file_match pf_demo "/grub.cfg" 0) (pf_devices pf_demo)).
Proof.
  split; [reflexivity |].
  assert (Forall (fun n => alloc_fails pf_demo "/grub.cfg" n = false)
            (List.filter (fun n => negb (skipped 0 n)) (pf_devices pf_demo)))
    as Hall by (repeat constructor).
  split; [exact Hall |].
  exact (proj1 (proj2 (reporting_emits_matches pf_demo "/grub.cfg" 0 s_clean))
           Hall).
Defined.

Lemma device_failures_cleared_witness :
  skipped 0 "hd2" = false /\
  fs_quid pf_demo 0 "hd2" = None /\
  (let hook := search_fs_iterate_device pf_demo "MYUSB" None 0 0 in
   let r := hook "hd2" 0%Z s_clean in
   val r = (0%Z, 0%Z) /\
   grub_errno (st r) = GRUB_ERR_NONE /\ env (st r) = env s_clean /\
   printed (evs r) = [] /\ env_writes (evs r) = [] /\
   errors_raised (evs r) = [] /\
   iterate_names hook ("hd2" :: ["hd1"]) 0%Z s_clean =
     (let r' := iterate_names hook ["hd1"] 0%Z (st r) in
      Res (val r') (st r') (evs r ++ evs r'))).
Proof.
  split; [reflexivity |]. split; [reflexivity |].
  exact (proj1 (device_failures_cleared pf_demo "MYUSB" None 0 "hd2" ["hd1"]
                  s_clean eq_refl) 0%Z 0%Z eq_refl).
Defined.

Lemma invocation_errors_witness :
  (0%Z = 0%Z \/ no_mode (arg_state 1 0 0 0 None 0)) /\
  grub_cmd_search pf_demo (arg_state 1 0 0 0 None 0) 0 [] s_clean =
  Res GRUB_ERR_INVALID_COMMAND
      {| grub_errno := GRUB_ERR_INVALID_COMMAND; env := env s_clean |}
      [EvError GRUB_ERR_INVALID_COMMAND "no argument specified"] /\
  1%Z <> 0%Z /\ ~ no_mode (arg_state 1 0 0 0 None 0) /\
  (forall msg,
     (GRUB_ERR_INVALID_COMMAND, msg)
       ∉ errors_raised
           (evs (grub_cmd_search pf_demo (arg_state 1 0 0 0 None 0) 1
                   [EmptyString] s_clean))).
Proof.
  assert (~ no_mode (arg_state 1 0 0 0 None 0)) as Hmode
    by (intros (_ & _ & H); discriminate H).
  split; [by left |].
  split; [exact (proj1 (invocation_errors pf_demo (arg_state 1 0 0 0 None 0)
                          0 [] s_clean) (or_introl eq_refl)) |].
  split; [discriminate |]. split; [exact Hmode |].
  exact (proj2 (invocation_errors pf_demo (arg_state 1 0 0 0 None 0) 1
                  [EmptyString] s_clean) ltac:(discriminate) Hmode).
Defined.

Lemma floppy_filter_witness :
  1%Z <> 0%Z /\ floppy_name "fd0" = true /\
  search_fs_iterate_device pf_demo "MYUSB" None 1 0 "fd0" 0%Z s_clean =
    Res (0%Z, 0%Z) s_clean [] /\
  search_file_iterate_device pf_demo "MYUSB" None 1 "fd0"
      {| count := 0; buf := None |} s_clean =
    Res (0%Z, {| count := 0; buf := None |}) s_clean [].
Proof.
  split; [discriminate |]. split; [reflexivity |].
  apply (proj1 (proj2 (proj2 (floppy_filter pf_demo "MYUSB" None)))).
  - discriminate.
  - reflexivity.
Defined.

Lemma composite_path_witness :
  file_probed pf_demo "/boot/grub/grub.cfg" 0 "hd0" = true /\
  files_opened
    (evs (search_file_iterate_device pf_demo "/boot/grub/grub.cfg" None 0
            "hd0" {| count := 0; buf := None |} s_clean)) =
  ["(hd0)/boot/grub/grub.cfg"].
Proof.
  split; [reflexivity |].
  exact (proj1 (proj1 (proj2 (proj2
           (composite_path pf_demo "/boot/grub/grub.cfg" None 0 "hd0"
              {| count := 0; buf := None |} s_clean))) eq_refl)).
Defined.

Lemma mode_precedence_witness :
  1%Z <> 0%Z /\
  grub_cmd_search pf_demo (arg_state 1 1 1 0 None 0) 1 ["MYUSB"] s_clean =
  (search_fs pf_demo "MYUSB" None 0 0;; get_errno) s_clean.
Proof.
  split; [discriminate |].
  apply (proj1 (mode_precedence pf_demo (arg_state 1 1 1 0 None 0) 1
                  ["MYUSB"] s_clean ltac:(discriminate)) eq_refl).
Defined.

Lemma alloc_failure_aborts_witness :
  pf_devices pf_oom = ["hd0"] ++ "hd10" :: ["hd1"] /\
  Forall (fun n => file_stop pf_oom "/grub.cfg" None 0 n = false) ["hd0"] /\
  skipped 0 "hd10" = false /\
  pf_realloc pf_oom (path_len "hd10" "/grub.cfg") = Err GRUB_ERR_OUT_OF_MEMORY /\
  GRUB_ERR_OUT_OF_MEMORY <> GRUB_ERR_NONE /\
  (let r := search_file pf_oom "/grub.cfg" None 0 s_clean in
   files_opened (evs r) =
     map (fun n => composite n "/grub.cfg")
         (List.filter (fun n => negb (skipped 0 n)) ["hd0"]) /\
   ~ raised_not_found (evs r) /\
   grub_errno (st r) = GRUB_ERR_OUT_OF_MEMORY).
Proof.
  assert (Forall (fun n => file_stop pf_oom "/grub.cfg" None 0 n = false)
            ["hd0"]) as Hpre by (repeat constructor).
  split; [reflexivity |]. split; [exact Hpre |]. split; [reflexivity |].
  split; [reflexivity |]. split; [discriminate |].
  destruct (alloc_failure_aborts pf_oom "/grub.cfg" None 0 ["hd0"] ["hd1"]
              "hd10" GRUB_ERR_OUT_OF_MEMORY s_clean eq_refl Hpre eq_refl
              eq_refl ltac:(discriminate))
    as (_ & _ & Hfiles & Hnf & Herr & _).
  split; [exact Hfiles |]. split; [exact Hnf | exact Herr].
Defined.

(** * Further properties of the search functions *)

(** ** Enumerations, from any state *)

(** What holds of each per-device test, and is kept by doing nothing and by
    doing one thing after another, holds of the enumeration. *)
Lemma iterate_names_rel {L : Type} (hook : string -> L -> M (Z * L))
    (names : list string)
    (R : L * globals -> L * globals -> list event -> Prop) :
  (forall x, R x x []) ->
  (forall x y z t1 t2, R x y t1 -> R y z t2 -> R x z (t1 ++ t2)) ->
  (forall n ctx s, n ∈ names ->
     R (ctx, s) ((val (hook n ctx s)).2, st (hook n ctx s))
       (evs (hook n ctx s))) ->
  forall ctx s,
    R (ctx, s) ((val (iterate_names hook names ctx s)).2,
                st (iterate_names hook names ctx s))
      (evs (iterate_names hook names ctx s)).
Proof.
  intros Hrefl Htrans. induction names as [|n rest IH]; intros Hstep ctx s.
  { apply Hrefl. }
  rewrite iterate_names_cons. cbv zeta.
  pose proof (Hstep n ctx s ltac:(left)) as H1.
  destruct (truthy (val (hook n ctx s)).1); cbn [val st evs snd].
  - by rewrite app_nil_r.
  - eapply Htrans; [exact H1 |]. apply IH.
    intros n' ctx' s' Hin. apply Hstep. by right.
Qed.

Lemma handles_after_app (pf : platform) (t1 t2 : list event)
    (h : option handle) :
  handles_after pf h (t1 ++ t2) =
  match handles_after pf h t1 with
  | Some h' => handles_after pf h' t2
  | None => None
  end.
Proof.
  revert h. induction t1 as [|e t1 IH]; intros h; [done |].
  destruct e; simpl; repeat case_bool_decide; by rewrite ?IH.
Qed.

Lemma format_no_device (key : string) :
  format "no such device: %s" [key] = "no such device: " +:+ key.
Proof. simpl. by rewrite append_empty_r. Qed.

Lemma format_no_file (key : string) :
  format "no such file: %s" [key] = "no such file: " +:+ key.
Proof. simpl. by rewrite append_empty_r. Qed.



(** ** The label test, from any state *)

Section FsAny.
Variable pf : platform.
Variables (key : string) (var : option string) (no_floppy is_uuid : Z).

Local Abbreviation hook := (search_fs_iterate_device pf key var no_floppy is_uuid).
Local Abbreviation hit := (fs_match pf key no_floppy is_uuid).

(** With an error pending on entry the label that was read is not looked
    at, so nothing matches; otherwise the test behaves as from a clean
    state.  Either way the device handle is released. *)
Lemma fs_step_gen (name : string) (c : Z) (s : globals) :
  let r := hook name c s in
  let found := hit name && bool_decide (grub_errno s = GRUB_ERR_NONE) in
  val r = ((if found && bool_decide (is_Some var) then 1 else 0)%Z,
           (if found then c + 1 else c)%Z) /\
  st r = (if skipped no_floppy name then s
          else {| grub_errno := GRUB_ERR_NONE;
                  env := match var with
                         | Some v => if found then <[v := name]> (env s)
                                     else env s
                         | None => env s
                         end |}) /\
  printed (evs r) = (if found && negb (bool_decide (is_Some var))
                     then [" " +:+ name] else []) /\
  env_writes (evs r) = (match var with
                        | Some v => if found then [(v, name)] else []
                        | None => []
                        end) /\
  handles_after pf None (evs r) = Some None.
Proof.
  intros r found. subst r found. unfold fs_match, fs_quid.
  destruct (skipped no_floppy name) eqn:Hskip.
  { rewrite fs_step_skipped by done. simpl. by destruct var. }
  unfold search_fs_iterate_device. unfold skipped in Hskip. rewrite Hskip.
  destruct s as [e0 env0]. run.
  assert (bool_decide (Some (HDevice name) = Some (HDevice name)) = true)
    as Hheld by (by apply bool_decide_eq_true_2).
  destruct (pf_device_open pf name) as [[]|e1] eqn:Ho; run.
  2:{ destruct (bool_decide (e1 = GRUB_ERR_NONE)); simpl; rewrite Ho;
        by destruct var. }
  destruct (pf_fs_probe pf name) as [fs|e2]; run.
  2:{ destruct (bool_decide (e2 = GRUB_ERR_NONE)); simpl; rewrite Ho;
        simpl; rewrite !Hheld; by destruct var. }
  destruct (QUID is_uuid fs) as [f|]; run.
  2:{ rewrite Ho. simpl. rewrite !Hheld. by destruct var. }
  destruct (f {| dev_name := name |}) as [e3 quid]; run.
  destruct (decide (e3 = GRUB_ERR_NONE)) as [-> | He3].
  2:{ rewrite !(bool_decide_eq_false_2 (e3 = GRUB_ERR_NONE)) by done.
      simpl. rewrite Ho. simpl. rewrite !Hheld.
      destruct e3; try done; by destruct var, quid. }
  simpl. destruct (decide (e0 = GRUB_ERR_NONE)) as [-> | He0].
  2:{ rewrite !(bool_decide_eq_false_2 (e0 = GRUB_ERR_NONE)) by done.
      simpl. rewrite Ho. simpl. rewrite !Hheld.
      rewrite andb_false_r. by destruct var, quid. }
  simpl. destruct quid as [q|]; simpl.
  2:{ rewrite Ho. simpl. rewrite !Hheld. by destruct var. }
  rewrite grub_strcmp_eq.
  destruct (decide (q = key)) as [->|Hne].
  - rewrite !bool_decide_eq_true_2 by done.
    destruct var as [v|]; simpl; rewrite Ho; simpl; rewrite !Hheld;
      rewrite ?append_empty_r; done.
  - rewrite !bool_decide_eq_false_2 by congruence.
    simpl. rewrite Ho. simpl. rewrite !Hheld. by destruct var.
Qed.

End FsAny.

Section FsScanAny.
Variable pf : platform.
Variables (key : string) (var : option string) (no_floppy is_uuid : Z).

Local Abbreviation hook := (search_fs_iterate_device pf key var no_floppy is_uuid).
Local Abbreviation hit := (fs_match pf key no_floppy is_uuid).

(** From any state: the counter grows by the number of devices reported or
    bound, the store is the old one with the writes applied, every handle is
    released, and unless nothing at all was done no error is left pending. *)
Lemma fs_scan_effects (names : list string) (c : Z) (s : globals) :
  let r := iterate_names hook names c s in
  (val r).2 = (c + Z.of_nat (length (printed (evs r)))
                 + Z.of_nat (length (env_writes (evs r))))%Z /\
  env (st r) = foldl (fun m w => <[w.1 := w.2]> m) (env s) (env_writes (evs r)) /\
  (evs r = [] /\ st r = s \/ grub_errno (st r) = GRUB_ERR_NONE) /\
  handles_after pf None (evs r) = Some None.
Proof.
  apply (iterate_names_rel hook names
           (fun x y t =>
              y.1 = (x.1 + Z.of_nat (length (printed t))
                       + Z.of_nat (length (env_writes t)))%Z /\
              env y.2 = foldl (fun m w => <[w.1 := w.2]> m) (env x.2)
                          (env_writes t) /\
              (t = [] /\ y.2 = x.2 \/ grub_errno y.2 = GRUB_ERR_NONE) /\
              handles_after pf None t = Some None)).
  - intros [c0 s0]. simpl. repeat split; [lia | by left].
  - intros [c0 s0] [c1 s1] [c2 s2] t1 t2 (Hc1 & He1 & Hd1 & Hh1)
      (Hc2 & He2 & Hd2 & Hh2). simpl in *.
    split_trace. rewrite !length_app, foldl_app, handles_after_app, Hh1.
    repeat split; [lia | congruence | | done].
    destruct Hd1 as [[-> ->] | Hn1]; [done |].
    destruct Hd2 as [[-> ->] | Hn2]; by right.
  - intros n c0 s0 _.
    destruct (skipped no_floppy n) eqn:Hs.
    { rewrite fs_step_skipped by done. simpl.
      repeat split; first [done | lia | by left]. }
    destruct (fs_step_gen pf key var no_floppy is_uuid n c0 s0)
      as (Hval & Hst & Hpr & Hwr & Hh).
    rewrite Hval, Hst, Hpr, Hwr, Hh, Hs. cbn [fst snd].
    destruct (hit n && bool_decide (grub_errno s0 = GRUB_ERR_NONE));
      destruct var; simpl; repeat split; first [done | lia | by right].
Qed.

(** From any state: with a variable to set nothing is printed and every
    write is to that variable; without one nothing is written; and what is
    printed or written names a device of the list that takes part in the
    scan. *)
Lemma fs_scan_outputs (names : list string) (c : Z) (s : globals) :
  let r := iterate_names hook names c s in
  (is_Some var -> printed (evs r) = []) /\
  (var = None -> env_writes (evs r) = []) /\
  Forall (fun x => exists n, n ∈ names /\ skipped no_floppy n = false /\
                             x = " " +:+ n) (printed (evs r)) /\
  Forall (fun w => exists n, n ∈ names /\ skipped no_floppy n = false /\
                             var = Some w.1 /\ w.2 = n) (env_writes (evs r)).
Proof.
  apply (iterate_names_rel hook names
           (fun _ _ t =>
              (is_Some var -> printed t = []) /\
              (var = None -> env_writes t = []) /\
              Forall (fun x => exists n, n ∈ names /\
                         skipped no_floppy n = false /\ x = " " +:+ n)
                     (printed t) /\
              Forall (fun w => exists n, n ∈ names /\
                         skipped no_floppy n = false /\
                         var = Some w.1 /\ w.2 = n) (env_writes t))).
  - intros _. by repeat split.
  - intros _ _ _ t1 t2 (Hp1 & Hw1 & Hfp1 & Hfw1) (Hp2 & Hw2 & Hfp2 & Hfw2).
    split_trace. repeat split.
    + intros Hv. by rewrite Hp1, Hp2.
    + intros Hv. by rewrite Hw1, Hw2.
    + by apply Forall_app.
    + by apply Forall_app.
  - intros n c0 s0 Hin.
    destruct (fs_step_gen pf key var no_floppy is_uuid n c0 s0)
      as (_ & _ & Hpr & Hwr & _).
    rewrite Hpr, Hwr.
    destruct (hit n) eqn:Hhit; cbn [andb].
    + pose proof (fs_match_not_skipped pf key no_floppy is_uuid n Hhit) as Hs.
      destruct (bool_decide (grub_errno s0 = GRUB_ERR_NONE));
        destruct var as [v|]; simpl; repeat split; try done;
        try (by intros [? ?]); repeat constructor; by eauto 10.
    + destruct var; simpl; repeat split; try done; by intros [? ?].
Qed.


End FsScanAny.

(** ** The file test, from any state *)

Section FileAny.
Variable pf : platform.
Variables (key : string) (var : option string) (no_floppy : Z).

Local Abbreviation hook := (search_file_iterate_device pf key var no_floppy).

Lemma file_step_handles (name : string) (ctx : file_ctx) (s : globals) :
  handles_after pf None (evs (hook name ctx s)) = Some None.
Proof.
  destruct (skipped no_floppy name) eqn:Hs.
  { by rewrite file_step_skipped. }
  destruct (pf_realloc pf (path_len name key)) as [[]|e] eqn:Hr.
  2:{ by rewrite (file_step_alloc_fails pf key var no_floppy name ctx s e Hs Hr). }
  unfold search_file_iterate_device. unfold skipped in Hs. rewrite Hs.
  fold (path_len name key). run. rewrite Hr. run.
  assert (forall p, bool_decide (Some (HFile p) = Some (HFile p)) = true)
    as Hheld by (intros p; by apply bool_decide_eq_true_2).
  destruct (pf_file_open pf _) as [[]|e1] eqn:Ho; run.
  - destruct var; simpl; rewrite Ho; simpl; by rewrite Hheld.
  - destruct (bool_decide (e1 = GRUB_ERR_NONE)); simpl; by rewrite Ho.
Qed.

(** From any state: every handle is released, with a variable to set
    nothing is printed and every write is to that variable, without one
    nothing is written, and what is printed or written names a device of
    the list that takes part in the scan. *)
Lemma file_scan_outputs (names : list string) (ctx : file_ctx) (s : globals) :
  let r := iterate_names hook names ctx s in
  handles_after pf None (evs r) = Some None /\
  (is_Some var -> printed (evs r) = []) /\
  (var = None -> env_writes (evs r) = []) /\
  Forall (fun x => exists n, n ∈ names /\ skipped no_floppy n = false /\
                             x = " " +:+ n) (printed (evs r)) /\
  Forall (fun w => exists n, n ∈ names /\ skipped no_floppy n = false /\
                             var = Some w.1 /\ w.2 = n) (env_writes (evs r)).
Proof.
  apply (iterate_names_rel hook names
           (fun _ _ t =>
              handles_after pf None t = Some None /\
              (is_Some var -> printed t = []) /\
              (var = None -> env_writes t = []) /\
              Forall (fun x => exists n, n ∈ names /\
                         skipped no_floppy n = false /\ x = " " +:+ n)
                     (printed t) /\
              Forall (fun w => exists n, n ∈ names /\
                         skipped no_floppy n = false /\
                         var = Some w.1 /\ w.2 = n) (env_writes t))).
  - intros _. by repeat split.
  - intros _ _ _ t1 t2 (Hh1 & Hp1 & Hw1 & Hfp1 & Hfw1)
      (Hh2 & Hp2 & Hw2 & Hfp2 & Hfw2).
    split_trace. rewrite handles_after_app, Hh1. repeat split; [done | | | |].
    + intros Hv. by rewrite Hp1, Hp2.
    + intros Hv. by rewrite Hw1, Hw2.
    + by apply Forall_app.
    + by apply Forall_app.
  - intros n ctx0 s0 Hin. split; [apply file_step_handles |].
    destruct (skipped no_floppy n) eqn:Hs.
    { rewrite file_step_skipped by done. by repeat split. }
    destruct (pf_realloc pf (path_len n key)) as [[]|e] eqn:Hr.
    2:{ rewrite (file_step_alloc_fails pf key var no_floppy n ctx0 s0 e Hs Hr).
        by repeat split. }
    assert (file_probed pf key no_floppy n = true) as Hp
      by (unfold file_probed, alloc_fails; by rewrite Hs, Hr).
    destruct (file_step_probed pf key var no_floppy n ctx0 s0 Hp)
      as (_ & _ & _ & Hpr & Hwr & _).
    rewrite Hpr, Hwr.
    destruct (file_present pf key n); destruct var as [v|]; simpl;
      repeat split; try done; try (by intros [? ?]);
      repeat constructor; by eauto 10.
Qed.


(** From any state, when no path buffer allocation fails: unless nothing at
    all was done, no error is left pending. *)
Lemma file_scan_clears (names : list string) (ctx : file_ctx) (s : globals) :
  Forall (fun n => alloc_fails pf key n = false)
         (List.filter (fun n => negb (skipped no_floppy n)) names) ->
  let r := iterate_names hook names ctx s in
  evs r = [] /\ st r = s \/ grub_errno (st r) = GRUB_ERR_NONE.
Proof.
  intros Hall.
  apply (iterate_names_rel hook names
           (fun x y t => t = [] /\ y.2 = x.2 \/
                         grub_errno y.2 = GRUB_ERR_NONE)).
  - intros x. by left.
  - intros [c0 s0] [c1 s1] [c2 s2] t1 t2 Hd1 Hd2. simpl in *.
    destruct Hd1 as [[-> ->] | Hn1]; [done |].
    destruct Hd2 as [[-> ->] | Hn2]; by right.
  - intros n ctx0 s0 Hin.
    destruct (skipped no_floppy n) eqn:Hs.
    { rewrite file_step_skipped by done. by left. }
    assert (alloc_fails pf key n = false) as Ha.
    { apply (proj1 (Forall_forall _ _) Hall n).
      apply list_elem_of_In, filter_In.
      split; [by apply list_elem_of_In | by rewrite Hs]. }
    assert (file_probed pf key no_floppy n = true) as Hp
      by (unfold file_probed; by rewrite Hs, Ha).
    destruct (file_step_probed pf key var no_floppy n ctx0 s0 Hp)
      as (_ & Herr & _).
    by right.
Qed.

End FileAny.

(** ** The search functions and the command, from any state *)

Lemma foldl_insert_other (ws : list (string * string))
    (m : gmap string string) (v x : string) :
  Forall (fun w => w.1 = v) ws -> x <> v ->
  foldl (fun m w => <[w.1 := w.2]> m) m ws !! x = m !! x.
Proof.
  intros Hws Hx. revert m.
  induction Hws as [|[k d] ws Hk _ IH]; intros m; [done |].
  simpl in *. subst k. rewrite IH. by apply lookup_insert_ne.
Qed.

Lemma length_zero_iff {A} (l1 : list A) {B} (l2 : list B) :
  (Z.of_nat (length l1) + Z.of_nat (length l2))%Z = 0%Z <->
  l1 = [] /\ l2 = [].
Proof.
  split.
  - intros H. destruct l1, l2; simpl in H; try lia. done.
  - by intros [-> ->].
Qed.

Section SearchAny.
Variable pf : platform.
Variables (key : string) (var : option string) (no_floppy : Z).

Lemma search_fs_effects (is_uuid : Z) (s : globals) :
  search_effects pf var no_floppy s (search_fs pf key var no_floppy is_uuid s).
Proof.
  unfold search_effects.
  destruct (search_fs_proj pf key var no_floppy is_uuid s)
    as (-> & -> & -> & _ & _).
  destruct (fs_scan_effects pf key var no_floppy is_uuid (pf_devices pf) 0%Z s)
    as (_ & Henv & _ & Hh).
  destruct (fs_scan_outputs pf key var no_floppy is_uuid (pf_devices pf) 0%Z s)
    as (Hp & Hw & Hfp & Hfw).
  repeat split; try done.
  rewrite search_fs_unfold. unfold grub_device_iterate. cbv zeta.
  destruct (_ =? 0)%Z; cbn [evs]; by rewrite handles_after_app, Hh.
Qed.

Lemma search_file_effects (s : globals) :
  search_effects pf var no_floppy s (search_file pf key var no_floppy s).
Proof.
  unfold search_effects.
  destruct (search_file_proj pf key var no_floppy s)
    as (-> & -> & -> & _ & _).
  destruct (file_scan pf key var no_floppy (pf_devices pf)
              {| count := 0; buf := None |} s)
    as (_ & _ & Henv & _).
  destruct (file_scan_outputs pf key var no_floppy (pf_devices pf)
              {| count := 0; buf := None |} s)
    as (Hh & Hp & Hw & Hfp & Hfw).
  repeat split; try done.
  rewrite search_file_unfold. unfold grub_device_iterate. cbv zeta.
  destruct (_ && _); cbn [evs]; by rewrite handles_after_app, Hh.
Qed.

(** The label and UUID search, from any state: it ends with "no such
    device" raised when nothing was reported or bound, and with no error
    pending and none raised otherwise. *)
Lemma search_fs_status (is_uuid : Z) (s : globals) :
  let r := search_fs pf key var no_floppy is_uuid s in
  (printed (evs r) = [] /\ env_writes (evs r) = [] ->
   grub_errno (st r) = GRUB_ERR_FILE_NOT_FOUND /\
   errors_raised (evs r) =
     [(GRUB_ERR_FILE_NOT_FOUND, "no such device: " +:+ key)]) /\
  (~ (printed (evs r) = [] /\ env_writes (evs r) = []) ->
   grub_errno (st r) = GRUB_ERR_NONE /\ errors_raised (evs r) = []).
Proof.
  intros r. subst r.
  destruct (search_fs_proj pf key var no_floppy is_uuid s)
    as (_ & -> & -> & _ & _).
  rewrite search_fs_unfold. unfold grub_device_iterate. cbv zeta.
  destruct (fs_scan_effects pf key var no_floppy is_uuid (pf_devices pf) 0%Z s)
    as (Hc & _ & Hd & _).
  pose proof (iterate_names_no_error
                (search_fs_iterate_device pf key var no_floppy is_uuid)
                (pf_devices pf)
                (fun n c s => proj2 (fs_step_any pf key var no_floppy is_uuid
                                       n c s)) 0%Z s) as He.
  rewrite Z.add_0_l in Hc.
  destruct (_ =? 0)%Z eqn:Hz; cbn [st evs grub_errno]; split_trace;
    rewrite He, ?format_no_device.
  - split; [done |].
    intros Hne. exfalso. apply Hne. apply length_zero_iff.
    apply Z.eqb_eq in Hz. by rewrite <- Hc.
  - apply Z.eqb_neq in Hz. split.
    + intros Hnil. exfalso. apply Hz. rewrite Hc. by apply length_zero_iff.
    + intros _. split; [| done].
      destruct Hd as [[Hnil _] | Hn]; [| done].
      exfalso. apply Hz. rewrite Hc, Hnil. done.
Qed.

(** The file search, from any state: it raises at most "no such file", and
    then this is the error pending at the end.  Entered with no error
    pending and with every path buffer granted, it ends like the label
    search. *)
Lemma search_file_status (s : globals) :
  let r := search_file pf key var no_floppy s in
  (errors_raised (evs r) = [] \/
   errors_raised (evs r) =
     [(GRUB_ERR_FILE_NOT_FOUND, "no such file: " +:+ key)] /\
   grub_errno (st r) = GRUB_ERR_FILE_NOT_FOUND) /\
  (grub_errno s = GRUB_ERR_NONE ->
   Forall (fun n => alloc_fails pf key n = false)
          (List.filter (fun n => negb (skipped no_floppy n)) (pf_devices pf)) ->
   (printed (evs r) = [] /\ env_writes (evs r) = [] ->
    grub_errno (st r) = GRUB_ERR_FILE_NOT_FOUND /\
    errors_raised (evs r) =
      [(GRUB_ERR_FILE_NOT_FOUND, "no such file: " +:+ key)]) /\
   (~ (printed (evs r) = [] /\ env_writes (evs r) = []) ->
    grub_errno (st r) = GRUB_ERR_NONE /\ errors_raised (evs r) = [])).
Proof.
  intros r. subst r.
  destruct (search_file_proj pf key var no_floppy s)
    as (_ & -> & -> & _ & _).
  rewrite search_file_unfold. unfold grub_device_iterate. cbv zeta.
  destruct (file_scan pf key var no_floppy (pf_devices pf)
              {| count := 0; buf := None |} s)
    as (_ & Hc & _ & Hpr & Hwr & _ & _ & He).
  assert (count (val (iterate_names
                        (search_file_iterate_device pf key var no_floppy)
                        (pf_devices pf) {| count := 0; buf := None |} s)).2 =
          (Z.of_nat (length (printed (evs (iterate_names
                        (search_file_iterate_device pf key var no_floppy)
                        (pf_devices pf) {| count := 0; buf := None |} s))))
           + Z.of_nat (length (env_writes (evs (iterate_names
                        (search_file_iterate_device pf key var no_floppy)
                        (pf_devices pf) {| count := 0; buf := None |} s)))))%Z)
    as Hcount.
  { rewrite Hc, Hpr, Hwr. cbn [count]. destruct var; simpl;
      rewrite ?length_map; lia. }
  clear Hc Hpr Hwr.
  destruct (bool_decide _ && _) eqn:Hz; cbn [st evs grub_errno]; split_trace;
    rewrite He, ?format_no_file; cbn [app].
  - apply andb_prop in Hz as [_ Hz]. apply Z.eqb_eq in Hz.
    split; [by right |]. intros _ _. split; [done |].
    intros Hne. exfalso. apply Hne. apply length_zero_iff.
    by rewrite <- Hcount.
  - split; [by left |]. intros Hclean Hall.
    destruct (file_scan_clears pf key var no_floppy (pf_devices pf)
                {| count := 0; buf := None |} s Hall) as [[_ Hst] | Hn].
    + rewrite Hst, Hclean in Hz |- *. rewrite bool_decide_eq_true_2 in Hz by done.
      apply Z.eqb_neq in Hz. split; [| done].
      intros Hnil. exfalso. apply Hz. rewrite Hcount.
      by apply length_zero_iff.
    + rewrite Hn in Hz |- *. rewrite bool_decide_eq_true_2 in Hz by done.
      apply Z.eqb_neq in Hz. split; [| done].
      intros Hnil. exfalso. apply Hz. rewrite Hcount.
      by apply length_zero_iff.
Qed.

End SearchAny.

(** What holds of the two refusals, and of each search followed by the
    return of [grub_errno], holds of the command's result. *)
Lemma cmd_cases (pf : platform) (state : options -> grub_arg_list)
    (argc : Z) (args : list string) (s : globals)
    (Q : res grub_err_t -> Prop) :
  let key := default EmptyString (head args) in
  let var := binding_target state in
  let no_floppy := set (state SEARCH_NO_FLOPPY) in
  Q (Res GRUB_ERR_INVALID_COMMAND
         {| grub_errno := GRUB_ERR_INVALID_COMMAND; env := env s |}
         [EvError GRUB_ERR_INVALID_COMMAND "no argument specified"]) ->
  Q (Res GRUB_ERR_INVALID_COMMAND
         {| grub_errno := GRUB_ERR_INVALID_COMMAND; env := env s |}
         [EvError GRUB_ERR_INVALID_COMMAND "unspecified search type"]) ->
  (forall is_uuid,
     let m := search_fs pf key var no_floppy is_uuid s in
     Q (Res (grub_errno (st m)) (st m) (evs m))) ->
  (let m := search_file pf key var no_floppy s in
   Q (Res (grub_errno (st m)) (st m) (evs m))) ->
  Q (grub_cmd_search pf state argc args s).
Proof.
  intros key var no_floppy Hnone Hmode Hfs Hfile.
  destruct (decide (argc = 0%Z)) as [-> | Hargc]; [exact Hnone |].
  rewrite (cmd_dispatch pf state argc args s Hargc). cbv zeta.
  destruct (truthy (set (state SEARCH_LABEL)));
    [| destruct (truthy (set (state SEARCH_FS_UUID)));
       [| destruct (truthy (set (state SEARCH_FILE)))]].
  - rewrite then_get_errno, app_nil_r. apply Hfs.
  - rewrite then_get_errno, app_nil_r. apply Hfs.
  - rewrite then_get_errno, app_nil_r. apply Hfile.
  - exact Hmode.
Qed.

(** ** Handles *)

(** X1.  Whatever the options, the arguments and the state, the command
    keeps to the discipline of handles: it opens a device or a file only
    when it holds none, probes and reads only the device it holds, closes
    only what it holds, and holds nothing when it returns. *)
Theorem handles_released (pf : platform) (state : options -> grub_arg_list)
    (argc : Z) (args : list string) (s : globals) :
  handles_after pf None (evs (grub_cmd_search pf state argc args s)) =
  Some None.
Proof.
  apply (cmd_cases pf state argc args s
           (fun r => handles_after pf None (evs r) = Some None));
    [done | done | |].
  - intros is_uuid m. apply search_fs_effects.
  - intros m. apply search_file_effects.
Qed.

(** ** The variable store *)

(** X2.  Without [-s] the command leaves the variable store as it found it
    and writes nothing.  With [-s] it prints nothing, every write it makes is
    to the variable named with [-s] ([root] when no name is given), and all
    other variables keep their values. *)
Theorem store_frame (pf : platform) (state : options -> grub_arg_list)
    (argc : Z) (args : list string) (s : globals) :
  let r := grub_cmd_search pf state argc args s in
  (truthy (set (state SEARCH_SET)) = false ->
   env (st r) = env s /\ env_writes (evs r) = []) /\
  (truthy (set (state SEARCH_SET)) = true ->
   let v := default "root" (arg (state SEARCH_SET)) in
   printed (evs r) = [] /\
   Forall (fun w => w.1 = v) (env_writes (evs r)) /\
   forall x, x <> v -> env (st r) !! x = env s !! x).
Proof.
  assert (forall m : res unit,
            search_effects pf (binding_target state)
              (set (state SEARCH_NO_FLOPPY)) s m ->
            (truthy (set (state SEARCH_SET)) = false ->
             env (st m) = env s /\ env_writes (evs m) = []) /\
            (truthy (set (state SEARCH_SET)) = true ->
             let v := default "root" (arg (state SEARCH_SET)) in
             printed (evs m) = [] /\
             Forall (fun w => w.1 = v) (env_writes (evs m)) /\
             forall x, x <> v -> env (st m) !! x = env s !! x)) as Hm.
  { intros m (_ & Henv & Hp & Hw & _ & Hfw). unfold binding_target in *.
    destruct (truthy (set (state SEARCH_SET))); split; try done.
    - intros _. set (v := default "root" (arg (state SEARCH_SET))) in *.
      assert (Forall (fun w => w.1 = v) (env_writes (evs m))) as Hall.
      { eapply Forall_impl; [exact Hfw |].
        intros w (n & _ & _ & Hv & _). by injection Hv. }
      split; [by apply Hp |]. split; [exact Hall |].
      intros x Hx. rewrite Henv. by apply (foldl_insert_other _ _ v).
    - intros _. rewrite Henv, Hw by done. done. }
  apply (cmd_cases pf state argc args s
           (fun r =>
              (truthy (set (state SEARCH_SET)) = false ->
               env (st r) = env s /\ env_writes (evs r) = []) /\
              (truthy (set (state SEARCH_SET)) = true ->
               let v := default "root" (arg (state SEARCH_SET)) in
               printed (evs r) = [] /\
               Forall (fun w => w.1 = v) (env_writes (evs r)) /\
               forall x, x <> v -> env (st r) !! x = env s !! x))).
  - by repeat split.
  - by repeat split.
  - intros is_uuid m. apply Hm, search_fs_effects.
  - intros m. apply Hm, search_file_effects.
Qed.

(** ** The match counter *)


(** ** Errors raised *)

(** X5.  In one invocation the command raises at most one error, and it is
    one of four: no argument, no search type, no such device with the key,
    no such file with the key.  The code of an error that was raised is the
    value returned. *)
Theorem errors_of_command (pf : platform) (state : options -> grub_arg_list)
    (argc : Z) (args : list string) (s : globals) :
  let r := grub_cmd_search pf state argc args s in
  let key := default EmptyString (head args) in
  (errors_raised (evs r) = [] \/
   errors_raised (evs r) =
     [(GRUB_ERR_INVALID_COMMAND, "no argument specified")] \/
   errors_raised (evs r) =
     [(GRUB_ERR_INVALID_COMMAND, "unspecified search type")] \/
   errors_raised (evs r) =
     [(GRUB_ERR_FILE_NOT_FOUND, "no such device: " +:+ key)] \/
   errors_raised (evs r) =
     [(GRUB_ERR_FILE_NOT_FOUND, "no such file: " +:+ key)]) /\
  (forall n msg, (n, msg) ∈ errors_raised (evs r) -> val r = n).
Proof.
  intros r key. subst r.
  apply (cmd_cases pf state argc args s
           (fun r =>
              (errors_raised (evs r) = [] \/
               errors_raised (evs r) =
                 [(GRUB_ERR_INVALID_COMMAND, "no argument specified")] \/
               errors_raised (evs r) =
                 [(GRUB_ERR_INVALID_COMMAND, "unspecified search type")] \/
               errors_raised (evs r) =
                 [(GRUB_ERR_FILE_NOT_FOUND, "no such device: " +:+ key)] \/
               errors_raised (evs r) =
                 [(GRUB_ERR_FILE_NOT_FOUND, "no such file: " +:+ key)]) /\
              (forall n msg, (n, msg) ∈ errors_raised (evs r) -> val r = n))).
  - split; [by right; left |]. intros n msg Hin.
    apply list_elem_of_singleton in Hin. by injection Hin as -> _.
  - split; [by right; right; left |]. intros n msg Hin.
    apply list_elem_of_singleton in Hin. by injection Hin as -> _.
  - intros is_uuid m. cbn [val evs].
    destruct (search_fs_status pf key (binding_target state)
                (set (state SEARCH_NO_FLOPPY)) is_uuid s) as [Hnone Hsome].
    change (search_fs pf key (binding_target state)
              (set (state SEARCH_NO_FLOPPY)) is_uuid s) with m in Hnone, Hsome.
    destruct (decide (printed (evs m) = [] /\ env_writes (evs m) = []))
      as [Hd | Hd].
    + destruct (Hnone Hd) as [-> ->]. split; [by do 3 right; left |].
      intros n msg Hin. apply list_elem_of_singleton in Hin.
      by injection Hin as -> _.
    + destruct (Hsome Hd) as [-> ->]. split; [by left |].
      intros n msg Hin. by apply elem_of_nil in Hin.
  - intros m. cbn [val evs].
    destruct (search_file_status pf key (binding_target state)
                (set (state SEARCH_NO_FLOPPY)) s) as [Hraised _].
    change (search_file pf key (binding_target state)
              (set (state SEARCH_NO_FLOPPY)) s) with m in Hraised.
    destruct Hraised as [-> | [-> ->]].
    + split; [by left |]. intros n msg Hin. by apply elem_of_nil in Hin.
    + split; [by do 4 right |]. intros n msg Hin.
      apply list_elem_of_singleton in Hin. by injection Hin as -> _.
Qed.

(** ** What is reported *)

(** X7.  Whatever the options, the arguments and the state, every text the
    command prints is a space followed by a name from the platform's device
    list, and every value it writes is such a name; the name is never one
    that [-n] excludes, that is, with [-n] it is never a floppy name. *)
Theorem outputs_are_devices (pf : platform) (state : options -> grub_arg_list)
    (argc : Z) (args : list string) (s : globals) :
  let r := grub_cmd_search pf state argc args s in
  let no_floppy := set (state SEARCH_NO_FLOPPY) in
  Forall (fun x => exists n, n ∈ pf_devices pf /\ x = " " +:+ n /\
                    truthy no_floppy && floppy_name n = false)
         (printed (evs r)) /\
  Forall (fun w => exists n, n ∈ pf_devices pf /\ w.2 = n /\
                    truthy no_floppy && floppy_name n = false)
         (env_writes (evs r)).
Proof.
  intros r no_floppy. subst r.
  assert (forall m : res unit,
            search_effects pf (binding_target state) no_floppy s m ->
            Forall (fun x => exists n, n ∈ pf_devices pf /\ x = " " +:+ n /\
                      truthy no_floppy && floppy_name n = false)
                   (printed (evs m)) /\
            Forall (fun w => exists n, n ∈ pf_devices pf /\ w.2 = n /\
                      truthy no_floppy && floppy_name n = false)
                   (env_writes (evs m))) as Hm.
  { intros m (_ & _ & _ & _ & Hfp & Hfw). split.
    - eapply Forall_impl; [exact Hfp |].
      intros x (n & Hin & Hs & ->). by eauto.
    - eapply Forall_impl; [exact Hfw |].
      intros w (n & Hin & Hs & _ & Hw). by eauto. }
  apply (cmd_cases pf state argc args s
           (fun r =>
              Forall (fun x => exists n, n ∈ pf_devices pf /\ x = " " +:+ n /\
                        truthy no_floppy && floppy_name n = false)
                     (printed (evs r)) /\
              Forall (fun w => exists n, n ∈ pf_devices pf /\ w.2 = n /\
                        truthy no_floppy && floppy_name n = false)
                     (env_writes (evs r)))).
  - by split.
  - by split.
  - intros is_uuid m. apply Hm, search_fs_effects.
  - intros m. apply Hm, search_file_effects.
Qed.

(** ** The value returned *)



(** ** Running the command twice *)


Section Twice.
Variable pf : platform.
Variables (key : string) (var : option string) (no_floppy : Z).



End Twice.


(** ** The order of probing *)

Lemma fs_scan_order (pf : platform) (key : string) (var : option string)
    (no_floppy is_uuid : Z) (names : list string) (c : Z) (s : globals) :
  devices_opened
    (evs (iterate_names (search_fs_iterate_device pf key var no_floppy is_uuid)
            names c s))
  `prefix_of` List.filter (fun n => negb (skipped no_floppy n)) names.
Proof.
  revert c s. induction names as [|n rest IH]; intros c s; [done |].
  rewrite iterate_names_cons. cbv zeta. cbn [List.filter].
  destruct (fs_step_any pf key var no_floppy is_uuid n c s) as [Hop _].
  destruct (truthy _); cbn [evs]; split_trace; rewrite Hop.
  - destruct (skipped no_floppy n); cbn [negb].
    + apply prefix_nil.
    + by apply prefix_cons, prefix_nil.
  - destruct (skipped no_floppy n); cbn [negb app]; [apply IH |].
    apply prefix_cons, IH.
Qed.

Lemma file_scan_order (pf : platform) (key : string) (var : option string)
    (no_floppy : Z) (names : list string) (ctx : file_ctx) (s : globals) :
  files_opened
    (evs (iterate_names (search_file_iterate_device pf key var no_floppy)
            names ctx s))
  `prefix_of` map (fun n => composite n key)
                  (List.filter (fun n => negb (skipped no_floppy n)) names).
Proof.
  destruct (file_scan pf key var no_floppy names ctx s)
    as (_ & _ & _ & _ & _ & -> & _).
  clear ctx s. induction names as [|n rest IH]; [done |].
  cbn [visited List.filter].
  destruct (skipped no_floppy n) eqn:Hs.
  { destruct (file_flags_skipped pf key var no_floppy n Hs) as (-> & _ & ->).
    apply IH. }
  cbn [negb map].
  destruct (alloc_fails pf key n) eqn:Ha.
  { destruct (file_flags_alloc pf key var no_floppy n Hs Ha) as (-> & _ & ->).
    apply prefix_nil. }
  destruct (file_flags_probed pf key var no_floppy n Hs Ha) as (_ & _ & ->).
  cbn [map]. apply prefix_cons.
  destruct (file_stop pf key var no_floppy n); [apply prefix_nil | apply IH].
Qed.

(** X9.  From any state, the devices a label or UUID search opens, and the
    paths a file search opens, are an initial part of what the devices
    taking part in the scan give in enumeration order: no device is probed
    twice, out of turn, or after one that was left out. *)
Theorem probes_in_order (pf : platform) (key : string) (var : option string)
    (no_floppy : Z) (s : globals) :
  let taking_part := List.filter (fun n => negb (skipped no_floppy n))
                                 (pf_devices pf) in
  (forall is_uuid,
     devices_opened (evs (search_fs pf key var no_floppy is_uuid s))
     `prefix_of` taking_part) /\
  files_opened (evs (search_file pf key var no_floppy s))
  `prefix_of` map (fun n => "(" +:+ n +:+ ")" +:+ key) taking_part.
Proof.
  intros taking_part. subst taking_part. split.
  - intros is_uuid.
    destruct (search_fs_proj pf key var no_floppy is_uuid s)
      as (_ & _ & _ & -> & _).
    apply fs_scan_order.
  - destruct (search_file_proj pf key var no_floppy s)
      as (_ & _ & _ & _ & ->).
    apply file_scan_order.
Qed.

(** * The further theorems at work on the sample platforms *)

Lemma store_frame_witness :
  truthy (set (arg_state 0 1 0 1 (Some "boot") 1 SEARCH_SET)) = true /\
  (let r := grub_cmd_search pf_demo (arg_state 0 1 0 1 (Some "boot") 1) 1
              ["MYUSB"] s_clean in
   printed (evs r) = [] /\
   Forall (fun w => w.1 = "boot") (env_writes (evs r)) /\
   forall x, x <> "boot" -> env (st r) !! x = env s_clean !! x).
Proof.
  split; [reflexivity |].
  exact (proj2 (store_frame pf_demo (arg_state 0 1 0 1 (Some "boot") 1) 1
                  ["MYUSB"] s_clean) eq_refl).
Defined.




Lemma errors_of_command_witness :
  (GRUB_ERR_FILE_NOT_FOUND, "no such device: ABCD-1234")
    ∈ errors_raised
        (evs (grub_cmd_search pf_demo (arg_state 0 0 1 0 None 0) 1
                ["ABCD-1234"] s_clean)) /\
  val (grub_cmd_search pf_demo (arg_state 0 0 1 0 None 0) 1 ["ABCD-1234"]
         s_clean) = GRUB_ERR_FILE_NOT_FOUND.
Proof.
  assert ((GRUB_ERR_FILE_NOT_FOUND, "no such device: ABCD-1234")
            ∈ errors_raised
                (evs (grub_cmd_search pf_demo (arg_state 0 0 1 0 None 0) 1
                        ["ABCD-1234"] s_clean))) as Hin
    by (vm_compute; apply list_elem_of_here).
  split; [exact Hin |].
  exact (proj2 (errors_of_command pf_demo (arg_state 0 0 1 0 None 0) 1
                  ["ABCD-1234"] s_clean) _ _ Hin).
Defined.
